(** * Sales analysis report: a shallow embedding of [getSalesAnalysis]

    The controller sends its read-only SQL queries to two tables
    ([public.bookings], [public.fwcquotations]) and post-processes the rows in
    JavaScript.  The development has three layers, each following the source:

    - [Js]: the JavaScript values and built-ins the controller uses
      (numbers with NaN, [parseInt], [parseFloat], [||], [trim],
      plain objects used as maps, [Array.prototype.sort]);
    - [Pg]: the two tables and the queries, as list programs;
    - [Controller]: the body of [getSalesAnalysis], one definition per
      [const] of the source, and the try/catch around it.

    Modelling boundaries, stated once:
    - a JavaScript number is NaN, an infinity or an exact rational: rounding
      of doubles, overflow and the sign of zero are not modelled;
    - strings are byte strings; white space and letter case are the ASCII ones;
    - a plain object used as a map is the ordered list of its own properties:
      keys that name members of [Object.prototype] are outside the model;
    - SQL leaves the order of groups and of ties unspecified: the model picks
      first-occurrence order for groups and a stable order for ties, and no
      theorem below depends on that choice. *)

From Stdlib Require Import ZArith QArith List String Ascii Bool Lia.
From Stdlib Require Import Permutation Sorted DecimalString Lqa.
From Stdlib Require DecimalFacts DecimalPos DecimalN.
Import ListNotations.

Local Open Scope string_scope.
Local Open Scope Z_scope.

(* ===================================================================== *)
(** ** JavaScript values and built-ins *)
(* ===================================================================== *)

Module Js.

(** A JavaScript number. *)
Inductive number : Type :=
| NaN
| PInf
| NInf
| Fin (q : Q).

Definition zero : number := Fin 0.
Definition of_Z (z : Z) : number := Fin (inject_Z z).

(** [a + b] on numbers. *)
Definition add (a b : number) : number :=
  match a, b with
  | NaN, _ | _, NaN => NaN
  | PInf, NInf | NInf, PInf => NaN
  | PInf, _ | _, PInf => PInf
  | NInf, _ | _, NInf => NInf
  | Fin x, Fin y => Fin (Qred (x + y))
  end.

Definition neg (a : number) : number :=
  match a with
  | NaN => NaN
  | PInf => NInf
  | NInf => PInf
  | Fin x => Fin (Qred (- x))
  end.

(** [a - b] on numbers. *)
Definition sub (a b : number) : number := add a (neg b).

(** [a <= b]; false as soon as one side is NaN. *)
Definition leb (a b : number) : bool :=
  match a, b with
  | NaN, _ | _, NaN => false
  | NInf, _ | _, PInf => true
  | _, NInf | PInf, _ => false
  | Fin x, Fin y => Qle_bool x y
  end.

(** [a < b]; false as soon as one side is NaN. *)
Definition ltb (a b : number) : bool :=
  match a, b with
  | NaN, _ | _, NaN => false
  | Fin x, Fin y => negb (Qle_bool y x)
  | NInf, NInf | PInf, PInf => false
  | NInf, _ | _, PInf => true
  | _, NInf | PInf, _ => false
  end.

(** [Math.min(a, b)] and [Math.max(a, b)]: NaN if either argument is. *)
Definition min (a b : number) : number :=
  match a, b with
  | NaN, _ | _, NaN => NaN
  | _, _ => if leb a b then a else b
  end.

Definition max (a b : number) : number :=
  match a, b with
  | NaN, _ | _, NaN => NaN
  | _, _ => if leb a b then b else a
  end.

(** ToBoolean on a number: NaN and 0 are falsy. *)
Definition truthy (a : number) : bool :=
  match a with
  | NaN => false
  | PInf | NInf => true
  | Fin x => negb (Qeq_bool x 0)
  end.

(** [a || 0] for a number [a]. *)
Definition or0 (a : number) : number := if truthy a then a else zero.

Definition is_nan (a : number) : bool :=
  match a with NaN => true | _ => false end.

Definition finite (a : number) : Prop :=
  match a with Fin _ => True | _ => False end.

(** A value as a result row of the driver or a literal of the source holds
    it: [null], a string or a number. *)
Inductive value : Type :=
| VNull
| VStr (s : string)
| VNum (n : number).

(** *** Characters *)

Definition code (c : ascii) : Z := Z.of_N (N_of_ascii c).

Definition is_space (c : ascii) : bool :=
  let n := code c in ((9 <=? n) && (n <=? 13)) || (n =? 32).

Definition is_digit (c : ascii) : bool :=
  let n := code c in (48 <=? n) && (n <=? 57).

Definition digit_val (c : ascii) : Z := code c - 48.

(** Value of a hexadecimal digit, if [c] is one. *)
Definition hex_val (c : ascii) : option Z :=
  let n := code c in
  if (48 <=? n) && (n <=? 57) then Some (n - 48)
  else if (97 <=? n) && (n <=? 102) then Some (n - 87)
  else if (65 <=? n) && (n <=? 70) then Some (n - 55)
  else None.

Definition lower_char (c : ascii) : ascii :=
  let n := code c in
  if (65 <=? n) && (n <=? 90) then ascii_of_N (Z.to_N (n + 32)) else c.

(** *** Strings *)

Fixpoint skip_space (s : string) : string :=
  match s with
  | String c r => if is_space c then skip_space r else s
  | EmptyString => EmptyString
  end.

Fixpoint trim_end (s : string) : string :=
  match s with
  | EmptyString => EmptyString
  | String c r =>
      match trim_end r with
      | EmptyString => if is_space c then EmptyString else String c EmptyString
      | r' => String c r'
      end
  end.

(** [s.trim()]. *)
Definition trim (s : string) : string := trim_end (skip_space s).

Fixpoint lower (s : string) : string :=
  match s with
  | EmptyString => EmptyString
  | String c r => String (lower_char c) (lower r)
  end.

(** ToBoolean on a string or [null]/[undefined]: only a non-empty string is
    truthy. *)
Definition truthy_str (o : option string) : bool :=
  match o with
  | Some (String _ _) => true
  | _ => false
  end.

(** [o || d] where [o] is a string or [null] and [d] a string. *)
Definition or_str (o : option string) (d : string) : string :=
  match o with
  | Some (String c r) => String c r
  | _ => d
  end.

(** Reads decimal digits: the number read so far, how many digits were read,
    and the rest of the input. *)
Fixpoint digits_from (acc : Z) (n : nat) (s : string) : Z * nat * string :=
  match s with
  | String c r =>
      if is_digit c then digits_from (10 * acc + digit_val c) (S n) r
      else (acc, n, s)
  | EmptyString => (acc, n, s)
  end.

Fixpoint hex_from (acc : Z) (n : nat) (s : string) : Z * nat * string :=
  match s with
  | String c r =>
      match hex_val c with
      | Some d => hex_from (16 * acc + d) (S n) r
      | None => (acc, n, s)
      end
  | EmptyString => (acc, n, s)
  end.

(** An optional sign: whether it was a minus, and the rest. *)
Definition read_sign (s : string) : bool * string :=
  match s with
  | String "-" r => (true, r)
  | String "+" r => (false, r)
  | _ => (false, s)
  end.

Definition signed (minus : bool) (z : Z) : Z := if minus then - z else z.

(** [parseInt(s)] on a string, radix absent: leading white space, a sign,
    a [0x] prefix switching to radix 16, then the longest run of digits. *)
Definition parseInt_string (s : string) : number :=
  let '(minus, s1) := read_sign (skip_space s) in
  match s1 with
  | String "0" (String x r) =>
      if orb (Ascii.eqb x "x") (Ascii.eqb x "X") then
        let '(v, n, _) := hex_from 0 0 r in
        match n with O => NaN | S _ => of_Z (signed minus v) end
      else
        let '(v, _, _) := digits_from 0 0 s1 in of_Z (signed minus v)
  | _ =>
      let '(v, n, _) := digits_from 0 0 s1 in
      match n with O => NaN | S _ => of_Z (signed minus v) end
  end.

(** The exponent part of a decimal literal, when complete. *)
Definition read_exponent (s : string) : Z :=
  match s with
  | String e r =>
      if orb (Ascii.eqb e "e") (Ascii.eqb e "E") then
        let '(minus, r1) := read_sign r in
        let '(v, n, _) := digits_from 0 0 r1 in
        match n with O => 0 | S _ => signed minus v end
      else 0
  | EmptyString => 0
  end.

(** [m * 10^k] as a reduced rational. *)
Definition scale10 (m k : Z) : Q :=
  if 0 <=? k then inject_Z (m * 10 ^ k)
  else Qred (Qmake m (Z.to_pos (10 ^ (- k)))).

(** [parseFloat(s)] on a string: leading white space, a sign, then
    [Infinity] or the longest prefix that is a decimal literal. *)
Definition parseFloat_string (s : string) : number :=
  let '(minus, s1) := read_sign (skip_space s) in
  if String.prefix "Infinity" s1 then (if minus then NInf else PInf)
  else
    let '(ip, ni, s2) := digits_from 0 0 s1 in
    let '(fp, nf, s3) :=
      match s2 with
      | String "." r => digits_from 0 0 r
      | _ => (0, O, s2)
      end in
    match (ni + nf)%nat with
    | O => NaN
    | S _ =>
        let m := ip * 10 ^ Z.of_nat nf + fp in
        Fin (scale10 (signed minus m) (read_exponent s3 - Z.of_nat nf))
    end.

(** [parseInt(v)]: the argument is converted to a string first, so [null]
    reads as the text null and gives NaN; a finite number gives its integer
    part (numbers whose text uses exponent notation are outside the model). *)
Definition parseInt (v : value) : number :=
  match v with
  | VNull => NaN
  | VStr s => parseInt_string s
  | VNum (Fin q) => of_Z (Z.quot (Qnum q) (Zpos (Qden q)))
  | VNum _ => NaN
  end.

(** [parseFloat(v)]. *)
Definition parseFloat (v : value) : number :=
  match v with
  | VNull => NaN
  | VStr s => parseFloat_string s
  | VNum n => n
  end.

(** *** Arrays *)

(** [arr.sort(cmp)]: the specification asks for a stable sort, and with a
    consistent comparator every stable sort gives the same array; it is
    written here as an insertion sort.  [cmp a b > 0] puts [a] after [b]. *)
Fixpoint sort_insert {A : Type} (cmp : A -> A -> number) (x : A) (l : list A)
  : list A :=
  match l with
  | [] => [x]
  | y :: r => if ltb zero (cmp x y) then y :: sort_insert cmp x r else x :: l
  end.

Definition sort {A : Type} (cmp : A -> A -> number) (l : list A) : list A :=
  fold_right (sort_insert cmp) [] l.

(** *** What [res.json] is given: a tree of plain data. *)
Set Warnings "-register-all".
Inductive data : Type :=
| DNull
| DNum (n : number)
| DStr (s : string)
| DTime (t : Z)
| DArr (items : list data)
| DObj (fields : list (string * data)).

Definition of_value (v : value) : data :=
  match v with
  | VNull => DNull
  | VStr s => DStr s
  | VNum n => DNum n
  end.

(** The property names of an object, in order; nothing for other data. *)
Definition keys (d : data) : list string :=
  match d with
  | DObj fields => map fst fields
  | _ => []
  end.

End Js.

(* ===================================================================== *)
(** ** Plain objects used as maps *)
(* ===================================================================== *)

(** [{}] filled by [o[k] = v]: the own properties, in creation order.
    Enumeration ([Object.entries], [Object.values]) lists the keys that are
    array indices first, in ascending numeric order, then the other keys in
    creation order. *)
Module Obj.

(** The number a key denotes when it is an array index: a canonical decimal
    numeral below 2^32 - 1. *)
Definition array_index (k : string) : option Z :=
  match k with
  | EmptyString => None
  | String c _ =>
      let '(v, _, rest) := Js.digits_from 0 0 k in
      if (String.eqb rest "")
         && (String.eqb k "0" || negb (Ascii.eqb c "0"))
         && (v <=? 4294967294)
      then Some v else None
  end.

Definition is_index (k : string) : bool :=
  match array_index k with Some _ => true | None => false end.

Definition index_of (k : string) : Z :=
  match array_index k with Some v => v | None => 0 end.

Section Obj.
Context {V : Type}.

Definition t : Type := list (string * V).

Definition empty : t := [].

(** [o[k]], [None] standing for [undefined]. *)
Fixpoint get (k : string) (o : t) : option V :=
  match o with
  | [] => None
  | (k', v) :: r => if String.eqb k k' then Some v else get k r
  end.

(** [o[k] = v]: an existing property keeps its place. *)
Fixpoint set (k : string) (v : V) (o : t) : t :=
  match o with
  | [] => [(k, v)]
  | (k', v') :: r =>
      if String.eqb k k' then (k', v) :: r else (k', v') :: set k v r
  end.

(** [o[k].f = g(o[k].f)] on a property holding an object: the object is
    changed in place. *)
Fixpoint modify (k : string) (f : V -> V) (o : t) : t :=
  match o with
  | [] => []
  | (k', v') :: r =>
      if String.eqb k k' then (k', f v') :: r else (k', v') :: modify k f r
  end.

Fixpoint insert_index (e : string * V) (l : t) : t :=
  match l with
  | [] => [e]
  | e' :: r =>
      if index_of (fst e) <=? index_of (fst e') then e :: l
      else e' :: insert_index e r
  end.

(** [Object.entries(o)]. *)
Definition entries (o : t) : list (string * V) :=
  fold_right insert_index [] (filter (fun e => is_index (fst e)) o)
  ++ filter (fun e => negb (is_index (fst e))) o.

(** [Object.values(o)]. *)
Definition values (o : t) : list V := map snd (entries o).

(** The names of the properties, in creation order. *)
Definition names (o : t) : list string := map fst o.

End Obj.
Arguments t : clear implicits.

End Obj.

(* ===================================================================== *)
(** ** The store: two tables and the queries *)
(* ===================================================================== *)

Module Pg.

(** What a query gives: its rows, or the error it raised. *)
Inductive result (A : Type) : Type :=
| Ok (a : A)
| Error (msg : string).
Arguments Ok {A} a.
Arguments Error {A} msg.

Definition bind {A B : Type} (r : result A) (k : A -> result B) : result B :=
  match r with
  | Ok a => k a
  | Error msg => Error msg
  end.

Fixpoint mapM {A B : Type} (f : A -> result B) (l : list A) : result (list B) :=
  match l with
  | [] => Ok []
  | x :: r =>
      bind (f x) (fun y => bind (mapM f r) (fun ys => Ok (y :: ys)))
  end.

(** *** The [numeric] type: a decimal with its scale, or NaN. *)
Inductive numeric : Type :=
| NumNaN
| Dec (unscaled : Z) (scale : nat).

Definition numeric_zero : numeric := Dec 0 0.

Definition numeric_add (a b : numeric) : numeric :=
  match a, b with
  | NumNaN, _ | _, NumNaN => NumNaN
  | Dec u1 s1, Dec u2 s2 =>
      let s := Nat.max s1 s2 in
      Dec (u1 * 10 ^ Z.of_nat (s - s1) + u2 * 10 ^ Z.of_nat (s - s2)) s
  end.

(** Text of a natural number, in decimal. *)
Definition nat_text (z : Z) : string :=
  NilZero.string_of_uint (N.to_uint (Z.to_N z)).

Fixpoint zeros (n : nat) : string :=
  match n with
  | O => EmptyString
  | S m => String "0" (zeros m)
  end.

(** The text the server sends for a [numeric]: all the digits of the scale. *)
Definition numeric_text (a : numeric) : string :=
  match a with
  | NumNaN => "NaN"
  | Dec u s =>
      let p := 10 ^ Z.of_nat s in
      let m := Z.abs u in
      let frac := nat_text (m mod p) in
      ((if Z.ltb u 0 then "-" else "") ++ nat_text (m / p)
       ++ match s with
          | O => ""
          | S _ => "." ++ zeros (s - String.length frac) ++ frac
          end)%string
  end.

(** [COALESCE(x::numeric, 0)]. *)
Definition coalesce0 (x : option numeric) : numeric :=
  match x with
  | Some a => a
  | None => numeric_zero
  end.

(** [SUM(e)] over the rows of a group: NULL when there is no row. *)
Definition sum (l : list numeric) : option numeric :=
  match l with
  | [] => None
  | a :: r => Some (fold_left numeric_add r a)
  end.

(** The driver hands [bigint] and [numeric] columns over as strings. *)
Definition bigint_value (n : nat) : Js.value :=
  Js.VStr (nat_text (Z.of_nat n)).

Definition numeric_value (x : option numeric) : Js.value :=
  match x with
  | Some a => Js.VStr (numeric_text a)
  | None => Js.VNull
  end.

(** *** The [jsonb] column [products]

    A line item is an element of the array.  Of a line item the queries look
    at its top-level keys only, so a nested array or object under a key is
    kept as its text. *)
Inductive jfield : Type :=
| FNull
| FBool (b : bool)
| FNumber (n : numeric)
| FString (s : string)
| FNested (text : string).

Inductive jelem : Type :=
| EObject (fields : list (string * jfield))
| EArray (strings : list string)   (* an array: its string elements *)
| EString (s : string)
| EOther.                          (* a number, a boolean or null *)

Inductive jsonb : Type :=
| JArray (items : list jelem)
| JObject
| JScalar.

Fixpoint field (k : string) (fields : list (string * jfield)) : option jfield :=
  match fields with
  | [] => None
  | (k', v) :: r => if String.eqb k k' then Some v else field k r
  end.

(** [e ? k]: [k] is a top-level key of the object, a string element of the
    array, or the string itself. *)
Definition has_key (e : jelem) (k : string) : bool :=
  match e with
  | EObject fields => match field k fields with Some _ => true | None => false end
  | EArray strings => existsb (String.eqb k) strings
  | EString s => String.eqb k s
  | EOther => false
  end.

(** [e ->> k]: the value under [k] as text; NULL when [e] is no object, has
    no such key, or holds JSON null there. *)
Definition get_text (e : jelem) (k : string) : option string :=
  match e with
  | EObject fields =>
      match field k fields with
      | Some (FString s) => Some s
      | Some (FNumber n) => Some (numeric_text n)
      | Some (FBool b) => Some (if b then "true" else "false")
      | Some (FNested text) => Some text
      | Some FNull | None => None
      end
  | _ => None
  end.

(** [t::integer]: white space, a sign, digits, white space; anything else,
    or a number out of the 32-bit range, raises. *)
Definition int4_of_text (t : string) : result Z :=
  let '(minus, s1) := Js.read_sign (Js.skip_space t) in
  let '(v, n, rest) := Js.digits_from 0 0 s1 in
  match n, Js.skip_space rest with
  | S _, EmptyString =>
      let z := Js.signed minus v in
      if (-2147483648 <=? z) && (z <=? 2147483647) then Ok z
      else Error "value is out of range for type integer"
  | _, _ => Error "invalid input syntax for type integer"
  end.

(** [jsonb_typeof(p) != 'array'] *)
Definition not_array (p : jsonb) : bool :=
  match p with
  | JArray _ => false
  | _ => true
  end.

(** [jsonb_array_elements(p)]: no row for NULL, an error for a non-array. *)
Definition jsonb_array_elements (p : option jsonb) : result (list jelem) :=
  match p with
  | None => Ok []
  | Some (JArray items) => Ok items
  | Some JObject => Error "cannot extract elements from an object"
  | Some JScalar => Error "cannot extract elements from a scalar"
  end.

(** *** The tables *)

Module Booking.
Record t : Type := {
  order_id : Js.value;
  district : option string;
  status : option string;
  total : option numeric;
  amount_paid : option numeric;
  customer_type : option string;
  created_at : option Z;          (* seconds since 1970-01-01 *)
  products : option jsonb
}.
End Booking.

Module Quotation.
Record t : Type := {
  quotation_id : Js.value;
  district : option string;
  status : option string;
  total : option numeric;
  created_at : option Z;
  products : option jsonb
}.
End Quotation.

Record db : Type := {
  bookings : list Booking.t;
  fwcquotations : list Quotation.t
}.

(** *** Status tests *)

Definition confirmed : list string :=
  ["booked"; "paid"; "dispatched"; "packed"; "delivered"].

Definition pipeline : list string := ["pending"; "booked"].

Definition pipeline_probe : list string := ["booked"; "pending"].

(** [status IN (...)]: NULL is in no list. *)
Definition status_in (status : option string) (l : list string) : bool :=
  match status with
  | Some s => existsb (String.eqb s) l
  | None => false
  end.

(** [LOWER(status)] *)
Definition LOWER (status : option string) : option string :=
  option_map Js.lower status.

(** [x = y] on text, for grouping: two NULLs fall in one group. *)
Definition text_eqb (x y : option string) : bool :=
  match x, y with
  | Some a, Some b => String.eqb a b
  | None, None => true
  | _, _ => false
  end.

Definition Z_opt_eqb (x y : option Z) : bool :=
  match x, y with
  | Some a, Some b => Z.eqb a b
  | None, None => true
  | _, _ => false
  end.

(** *** GROUP BY and ORDER BY *)

Fixpoint distinct {K : Type} (eqb : K -> K -> bool) (l : list K) : list K :=
  match l with
  | [] => []
  | k :: r => k :: filter (fun k' => negb (eqb k k')) (distinct eqb r)
  end.

(** The groups of [rows] under [key], each with its rows in table order. *)
Definition group_by {A K : Type} (eqb : K -> K -> bool) (key : A -> K)
  (rows : list A) : list (K * list A) :=
  map (fun k => (k, filter (fun r => eqb k (key r)) rows))
      (distinct eqb (map key rows)).

Fixpoint order_insert {A : Type} (le : A -> A -> bool) (x : A) (l : list A)
  : list A :=
  match l with
  | [] => [x]
  | y :: r => if le x y then x :: l else y :: order_insert le x r
  end.

(** [ORDER BY]: the rows sorted so that [le] holds between neighbours. *)
Definition order_by {A : Type} (le : A -> A -> bool) (l : list A) : list A :=
  fold_right (order_insert le) [] l.

(** [x] may stand before [y] under [ORDER BY ... DESC]: NULLs come first. *)
Definition desc (x y : option Z) : bool :=
  match x, y with
  | None, _ => true
  | Some _, None => false
  | Some a, Some b => b <=? a
  end.

(** [x] may stand before [y] under [ORDER BY ... ASC]: NULLs come last. *)
Definition asc (x y : option Z) : bool :=
  match x, y with
  | _, None => true
  | None, Some _ => false
  | Some a, Some b => a <=? b
  end.

(** *** Months *)

(** Year and month of the day [days] after 1970-01-01 (proleptic
    Gregorian calendar). *)
Definition civil_month (days : Z) : Z * Z :=
  let z := days + 719468 in
  let era := z / 146097 in
  let doe := z - era * 146097 in
  let yoe := (doe - doe / 1460 + doe / 36524 - doe / 146096) / 365 in
  let doy := doe - (365 * yoe + yoe / 4 - yoe / 100) in
  let mp := (5 * doy + 2) / 153 in
  let m := if mp <? 10 then mp + 3 else mp - 9 in
  (yoe + era * 400 + (if m <=? 2 then 1 else 0), m).

(** [DATE_TRUNC('month', t)], as the number of the month: 12 * year + month - 1. *)
Definition date_trunc_month (t : option Z) : option Z :=
  match t with
  | Some secs => let '(y, m) := civil_month (secs / 86400) in Some (12 * y + (m - 1))
  | None => None
  end.

Definition pad (width : nat) (s : string) : string :=
  (zeros (width - String.length s) ++ s)%string.

(** [TO_CHAR(m, 'YYYY-MM')] for a month of the common era. *)
Definition to_char_month (m : option Z) : option string :=
  match m with
  | Some n => Some (pad 4 (nat_text (n / 12)) ++ "-" ++ pad 2 (nat_text (n mod 12 + 1)))%string
  | None => None
  end.

(** *** Result rows, one record per query, with the columns' names *)

Module ProbeRow.
Record t : Type := { source : string; invalid_count : Js.value }.
End ProbeRow.

Module ProductRow.
Record t : Type := { productname : option string; quantity : Js.value }.
End ProductRow.

Module CityRow.
Record t : Type := {
  district : option string; count : Js.value; total_amount : Js.value
}.
End CityRow.

Module TrendRow.
Record t : Type := {
  month : option string; volume : Js.value;
  total_amount : Js.value; amount_paid : Js.value
}.
End TrendRow.

Module ProfitRow.
Record t : Type := { total_amount : Js.value; amount_paid : Js.value }.
End ProfitRow.

Module StatusRow.
Record t : Type := {
  status : option string; count : Js.value; total_amount : Js.value
}.
End StatusRow.

Module CustomerRow.
Record t : Type := {
  customer_type : option string; count : Js.value; total_amount : Js.value
}.
End CustomerRow.

Module CancelRow.
Record t : Type := {
  type : string; order_id : Js.value; total : Js.value;
  created_at : option Z
}.
End CancelRow.

(** *** The queries: the source's eight numbered steps (step 3 sends two)

    Each [WHERE] clause is a predicate of its own, named after the query. *)

(** [products IS NULL OR jsonb_typeof(products::jsonb) != 'array'] *)
Definition products_invalid (p : option jsonb) : bool :=
  match p with
  | None => true
  | Some j => not_array j
  end.

(** 1. [validateProducts]: note that [status] is compared as stored. *)
Definition where_validate_bookings (b : Booking.t) : bool :=
  status_in (Booking.status b) confirmed
  && products_invalid (Booking.products b).

Definition where_validate_quotations (q : Quotation.t) : bool :=
  status_in (Quotation.status q) pipeline_probe
  && products_invalid (Quotation.products q).

Definition select_validateProducts (d : db) : list ProbeRow.t :=
  [ {| ProbeRow.source := "bookings";
       ProbeRow.invalid_count :=
         bigint_value (List.length (filter where_validate_bookings (bookings d))) |};
    {| ProbeRow.source := "fwcquotations";
       ProbeRow.invalid_count :=
         bigint_value
           (List.length (filter where_validate_quotations (fwcquotations d))) |} ].

(** [LOWER(status) IN ('booked', 'paid', 'dispatched', 'packed', 'delivered')] *)
Definition where_confirmed (b : Booking.t) : bool :=
  status_in (LOWER (Booking.status b)) confirmed.

(** [LOWER(status) IN ('pending', 'booked')] *)
Definition where_pipeline (q : Quotation.t) : bool :=
  status_in (LOWER (Quotation.status q)) pipeline.

(** 2. [products]: one row per line item that has both keys. *)
Definition where_line_item (e : jelem) : bool :=
  has_key e "productname" && has_key e "quantity".

Definition product_row (e : jelem) : result ProductRow.t :=
  bind
    match get_text e "quantity" with
    | Some t => int4_of_text t
    | None => Ok 0                     (* COALESCE(NULL, 0) *)
    end
    (fun q =>
       Ok {| ProductRow.productname := get_text e "productname";
             ProductRow.quantity := Js.VNum (Js.of_Z q) |}).

Definition booking_product_rows (b : Booking.t) : result (list ProductRow.t) :=
  bind (jsonb_array_elements (Booking.products b))
       (fun items => mapM product_row (filter where_line_item items)).

Definition select_products (d : db) : result (list ProductRow.t) :=
  bind (mapM booking_product_rows (filter where_confirmed (bookings d)))
       (fun rows => Ok (List.concat rows)).

(** 3. [cityBookings] and [cityQuotations]. *)
Definition select_cityBookings (d : db) : list CityRow.t :=
  map (fun g : option string * list Booking.t =>
         {| CityRow.district := fst g;
            CityRow.count := bigint_value (List.length (snd g));
            CityRow.total_amount :=
              numeric_value
                (sum (map (fun b => coalesce0 (Booking.total b)) (snd g))) |})
      (group_by text_eqb Booking.district (filter where_confirmed (bookings d))).

Definition select_cityQuotations (d : db) : list CityRow.t :=
  map (fun g : option string * list Quotation.t =>
         {| CityRow.district := fst g;
            CityRow.count := bigint_value (List.length (snd g));
            CityRow.total_amount :=
              numeric_value
                (sum (map (fun q => coalesce0 (Quotation.total q)) (snd g))) |})
      (group_by text_eqb Quotation.district
         (filter where_pipeline (fwcquotations d))).

(** 4. [historical]: one row per month, oldest first. *)
Definition select_historical (d : db) : list TrendRow.t :=
  map (fun g : option Z * list Booking.t =>
         {| TrendRow.month := to_char_month (fst g);
            TrendRow.volume := bigint_value (List.length (snd g));
            TrendRow.total_amount :=
              numeric_value
                (sum (map (fun b => coalesce0 (Booking.total b)) (snd g)));
            TrendRow.amount_paid :=
              numeric_value
                (sum (map (fun b => coalesce0 (Booking.amount_paid b)) (snd g))) |})
      (order_by (fun g1 g2 : option Z * list Booking.t => asc (fst g1) (fst g2))
         (group_by Z_opt_eqb (fun b => date_trunc_month (Booking.created_at b))
            (filter where_confirmed (bookings d)))).

(** 5. [profitability]: no GROUP BY, hence exactly one row. *)
Definition select_profitability (d : db) : list ProfitRow.t :=
  let rows := filter where_confirmed (bookings d) in
  [ {| ProfitRow.total_amount :=
         numeric_value (sum (map (fun b => coalesce0 (Booking.total b)) rows));
       ProfitRow.amount_paid :=
         numeric_value
           (sum (map (fun b => coalesce0 (Booking.amount_paid b)) rows)) |} ].

(** 6. [quotations]: every quotation, grouped by [LOWER(status)]. *)
Definition select_quotations (d : db) : list StatusRow.t :=
  map (fun g : option string * list Quotation.t =>
         {| StatusRow.status := fst g;
            StatusRow.count := bigint_value (List.length (snd g));
            StatusRow.total_amount :=
              numeric_value
                (sum (map (fun q => coalesce0 (Quotation.total q)) (snd g))) |})
      (group_by text_eqb (fun q => LOWER (Quotation.status q)) (fwcquotations d)).

(** 7. [customerTypes]. *)
Definition where_customer (b : Booking.t) : bool :=
  where_confirmed b
  && match Booking.customer_type b with Some _ => true | None => false end.

Definition select_customerTypes (d : db) : list CustomerRow.t :=
  map (fun g : option string * list Booking.t =>
         {| CustomerRow.customer_type := fst g;
            CustomerRow.count := bigint_value (List.length (snd g));
            CustomerRow.total_amount :=
              numeric_value
                (sum (map (fun b => coalesce0 (Booking.total b)) (snd g))) |})
      (group_by text_eqb Booking.customer_type (filter where_customer (bookings d))).

(** 8. [cancellations]: both tables, newest first. *)
Definition where_canceled_booking (b : Booking.t) : bool :=
  status_in (LOWER (Booking.status b)) ["canceled"].

Definition where_canceled_quotation (q : Quotation.t) : bool :=
  status_in (LOWER (Quotation.status q)) ["canceled"].

Definition canceled_booking (b : Booking.t) : CancelRow.t :=
  {| CancelRow.type := "booking";
     CancelRow.order_id := Booking.order_id b;
     CancelRow.total := Js.VStr (numeric_text (coalesce0 (Booking.total b)));
     CancelRow.created_at := Booking.created_at b |}.

Definition canceled_quotation (q : Quotation.t) : CancelRow.t :=
  {| CancelRow.type := "quotation";
     CancelRow.order_id := Quotation.quotation_id q;
     CancelRow.total := Js.VStr (numeric_text (coalesce0 (Quotation.total q)));
     CancelRow.created_at := Quotation.created_at q |}.

Definition union_canceled (d : db) : list CancelRow.t :=
  map canceled_booking (filter where_canceled_booking (bookings d))
  ++ map canceled_quotation (filter where_canceled_quotation (fwcquotations d)).

Definition select_cancellations (d : db) : list CancelRow.t :=
  order_by (fun r1 r2 => desc (CancelRow.created_at r1) (CancelRow.created_at r2))
    (union_canceled d).

End Pg.

(* ===================================================================== *)
(** ** The controller *)
(* ===================================================================== *)

Module Controller.

Import Js.
Import Pg.

(** The statements [await pool.query(...)] of the source, in order. *)
Inductive query : Type :=
| ValidateProducts
| Products
| CityBookings
| CityQuotations
| Historical
| Profitability
| Quotations
| CustomerTypes
| Cancellations.

Definition all_queries : list query :=
  [ValidateProducts; Products; CityBookings; CityQuotations; Historical;
   Profitability; Quotations; CustomerTypes; Cancellations].

(** The connection pool: the store behind it and, for each statement, the
    message of the error the connection raises for it, if it does. *)
Record pool : Type := {
  store : db;
  fault : query -> option string
}.

(** [await pool.query(q)]: the connection's error, or what the server
    answers. *)
Definition pool_query {A : Type} (p : pool) (q : query) (answer : result A)
  : result A :=
  match fault p q with
  | Some msg => Error msg
  | None => answer
  end.

(** The nine statements.  Only the second can be refused by the server
    itself: a cast or [jsonb_array_elements] may raise on the data. *)
Definition query_validateProducts (p : pool) : result (list ProbeRow.t) :=
  pool_query p ValidateProducts (Ok (select_validateProducts (store p))).
Definition query_products (p : pool) : result (list ProductRow.t) :=
  pool_query p Products (select_products (store p)).
Definition query_cityBookings (p : pool) : result (list CityRow.t) :=
  pool_query p CityBookings (Ok (select_cityBookings (store p))).
Definition query_cityQuotations (p : pool) : result (list CityRow.t) :=
  pool_query p CityQuotations (Ok (select_cityQuotations (store p))).
Definition query_historical (p : pool) : result (list TrendRow.t) :=
  pool_query p Historical (Ok (select_historical (store p))).
Definition query_profitability (p : pool) : result (list ProfitRow.t) :=
  pool_query p Profitability (Ok (select_profitability (store p))).
Definition query_quotations (p : pool) : result (list StatusRow.t) :=
  pool_query p Quotations (Ok (select_quotations (store p))).
Definition query_customerTypes (p : pool) : result (list CustomerRow.t) :=
  pool_query p CustomerTypes (Ok (select_customerTypes (store p))).
Definition query_cancellations (p : pool) : result (list CancelRow.t) :=
  pool_query p Cancellations (Ok (select_cancellations (store p))).

Definition error_of {A : Type} (r : result A) : option string :=
  match r with
  | Error msg => Some msg
  | Ok _ => None
  end.

(** The error statement [q] raises on pool [p], if it does. *)
Definition raised (p : pool) (q : query) : option string :=
  match q with
  | ValidateProducts => error_of (query_validateProducts p)
  | Products => error_of (query_products p)
  | CityBookings => error_of (query_cityBookings p)
  | CityQuotations => error_of (query_cityQuotations p)
  | Historical => error_of (query_historical p)
  | Profitability => error_of (query_profitability p)
  | Quotations => error_of (query_quotations p)
  | CustomerTypes => error_of (query_customerTypes p)
  | Cancellations => error_of (query_cancellations p)
  end.

(** *** The objects of the report *)

Module Product.
Record t : Type := { productname : string; quantity : number }.
End Product.

Module City.
Record t : Type := {
  district : string;
  booking_count : number;
  quotation_count : number;
  booking_amount : number;
  quotation_amount : number
}.
End City.

Module Trend.
Record t : Type := {
  month : option string;
  volume : number;
  total_amount : number;
  amount_paid : number;
  unpaid_amount : number
}.
End Trend.

Module Profit.
Record t : Type := {
  total_amount : number; amount_paid : number; unpaid_amount : number
}.
End Profit.

Module Bucket.
Record t : Type := { count : number; total_amount : number }.
End Bucket.

Module CustomerType.
Record t : Type := {
  customer_type : string; count : number; total_amount : number
}.
End CustomerType.

Module Cancellation.
Record t : Type := {
  type : string; order_id : value; total : number; created_at : option Z
}.
End Cancellation.

(** *** Step 2: products *)

(** The reducer of [productSummary]. *)
Definition productSummary_step (acc : Obj.t number) (row : ProductRow.t)
  : Obj.t number :=
  let name := option_map trim (ProductRow.productname row) in
  let qty := or0 (parseInt (ProductRow.quantity row)) in
  match name with
  | Some (String c r) =>
      let name := String c r in
      let old := match Obj.get name acc with Some n => or0 n | None => zero end in
      Obj.set name (add old qty) acc
  | _ => acc                                      (* if (!name) return acc *)
  end.

Definition productSummary (rows : list ProductRow.t) : Obj.t number :=
  fold_left productSummary_step rows Obj.empty.

Definition productData (rows : list ProductRow.t) : list Product.t :=
  sort (fun a b => sub (Product.quantity b) (Product.quantity a))
       (map (fun e : string * number =>
               {| Product.productname := fst e; Product.quantity := snd e |})
            (Obj.entries (productSummary rows))).

(** *** Step 3: regional demand *)

Definition new_city (district : string) : City.t :=
  {| City.district := district;
     City.booking_count := zero;
     City.quotation_count := zero;
     City.booking_amount := zero;
     City.quotation_amount := zero |}.

Definition add_booking (row : CityRow.t) (c : City.t) : City.t :=
  {| City.district := City.district c;
     City.booking_count := add (City.booking_count c) (parseInt (CityRow.count row));
     City.quotation_count := City.quotation_count c;
     City.booking_amount :=
       add (City.booking_amount c) (parseFloat (CityRow.total_amount row));
     City.quotation_amount := City.quotation_amount c |}.

Definition add_quotation (row : CityRow.t) (c : City.t) : City.t :=
  {| City.district := City.district c;
     City.booking_count := City.booking_count c;
     City.quotation_count :=
       add (City.quotation_count c) (parseInt (CityRow.count row));
     City.booking_amount := City.booking_amount c;
     City.quotation_amount :=
       add (City.quotation_amount c) (parseFloat (CityRow.total_amount row)) |}.

(** [row.district || 'Unknown'] *)
Definition district_of (row : CityRow.t) : string :=
  or_str (CityRow.district row) "Unknown".

(** The body of the [forEach] in [combineCityData]. *)
Definition combineCityData_step (type : string) (map : Obj.t City.t)
  (row : CityRow.t) : Obj.t City.t :=
  let district := district_of row in
  let map :=
    match Obj.get district map with
    | Some _ => map
    | None => Obj.set district (new_city district) map
    end in
  if String.eqb type "booking"
  then Obj.modify district (add_booking row) map
  else Obj.modify district (add_quotation row) map.

Definition combineCityData (bookingRows quotationRows : list CityRow.t)
  (type : string) : list City.t :=
  Obj.values
    (fold_left (combineCityData_step type) (bookingRows ++ quotationRows)
       Obj.empty).

Definition cityData (cityBookings cityQuotations : list CityRow.t) : list City.t :=
  combineCityData cityBookings cityQuotations "both".

(** *** Step 4: historical trends *)

Definition trend_point (row : TrendRow.t) : Trend.t :=
  let total := or0 (parseFloat (TrendRow.total_amount row)) in
  let paid := or0 (parseFloat (TrendRow.amount_paid row)) in
  let unpaid := sub total paid in
  {| Trend.month := TrendRow.month row;
     Trend.volume := or0 (parseInt (TrendRow.volume row));
     Trend.total_amount := total;
     Trend.amount_paid := min paid total;           (* Cap paid at total *)
     Trend.unpaid_amount := max zero unpaid |}.

Definition trendDataArray (rows : list TrendRow.t) : list Trend.t :=
  map trend_point rows.

(** *** Step 5: profitability *)

(** [profitability.rows[0] || { total_amount: 0, amount_paid: 0 }] *)
Definition profitRow (rows : list ProfitRow.t) : ProfitRow.t :=
  match rows with
  | row :: _ => row
  | [] => {| ProfitRow.total_amount := VNum zero;
             ProfitRow.amount_paid := VNum zero |}
  end.

Definition profitData (rows : list ProfitRow.t) : Profit.t :=
  let totalAmount := or0 (parseFloat (ProfitRow.total_amount (profitRow rows))) in
  let amountPaid := or0 (parseFloat (ProfitRow.amount_paid (profitRow rows))) in
  {| Profit.total_amount := totalAmount;
     Profit.amount_paid := amountPaid;
     Profit.unpaid_amount := max zero (sub totalAmount amountPaid) |}.

(** *** Step 6: quotation conversion rates *)

Definition empty_bucket : Bucket.t :=
  {| Bucket.count := zero; Bucket.total_amount := zero |}.

Definition quotationSummary_init : Obj.t Bucket.t :=
  [("pending", empty_bucket); ("booked", empty_bucket);
   ("canceled", empty_bucket)].

Definition add_to_bucket (row : StatusRow.t) (b : Bucket.t) : Bucket.t :=
  {| Bucket.count := add (Bucket.count b) (parseInt (StatusRow.count row));
     Bucket.total_amount :=
       add (Bucket.total_amount b)
           (or0 (parseFloat (StatusRow.total_amount row))) |}.

(** [row.status || 'canceled'] *)
Definition status_of (row : StatusRow.t) : string :=
  or_str (StatusRow.status row) "canceled".

(** The body of the [forEach] over [quotations.rows]. *)
Definition quotationSummary_step (summary : Obj.t Bucket.t) (row : StatusRow.t)
  : Obj.t Bucket.t :=
  let status := status_of row in
  match Obj.get status summary with
  | Some _ => Obj.modify status (add_to_bucket row) summary
  | None => summary
  end.

Definition quotationSummary (rows : list StatusRow.t) : Obj.t Bucket.t :=
  fold_left quotationSummary_step rows quotationSummary_init.

(** *** Step 7: customer types *)

Definition customerTypeData (rows : list CustomerRow.t) : list CustomerType.t :=
  map (fun row =>
         {| CustomerType.customer_type :=
              or_str (CustomerRow.customer_type row) "Unknown";
            CustomerType.count := parseInt (CustomerRow.count row);
            CustomerType.total_amount :=
              or0 (parseFloat (CustomerRow.total_amount row)) |})
      rows.

(** *** Step 8: cancellations *)

Definition cancellation (row : CancelRow.t) : Cancellation.t :=
  {| Cancellation.type := CancelRow.type row;
     Cancellation.order_id := CancelRow.order_id row;
     Cancellation.total := or0 (parseFloat (CancelRow.total row));
     Cancellation.created_at := CancelRow.created_at row |}.

Definition cancellationData (rows : list CancelRow.t) : list Cancellation.t :=
  map cancellation rows.

(** *** The response *)

Module Report.
Record t : Type := {
  products : list Product.t;
  cities : list City.t;
  trends : list Trend.t;
  profitability : Profit.t;
  quotations : Obj.t Bucket.t;
  customer_types : list CustomerType.t;
  cancellations : list Cancellation.t
}.
End Report.

Definition text_data (o : option string) : data :=
  match o with
  | Some s => DStr s
  | None => DNull
  end.

Definition time_data (o : option Z) : data :=
  match o with
  | Some t => DTime t
  | None => DNull
  end.

Definition product_data (x : Product.t) : data :=
  DObj [("productname", DStr (Product.productname x));
        ("quantity", DNum (Product.quantity x))].

Definition city_data (x : City.t) : data :=
  DObj [("district", DStr (City.district x));
        ("booking_count", DNum (City.booking_count x));
        ("quotation_count", DNum (City.quotation_count x));
        ("booking_amount", DNum (City.booking_amount x));
        ("quotation_amount", DNum (City.quotation_amount x))].

Definition trend_data (x : Trend.t) : data :=
  DObj [("month", text_data (Trend.month x));
        ("volume", DNum (Trend.volume x));
        ("total_amount", DNum (Trend.total_amount x));
        ("amount_paid", DNum (Trend.amount_paid x));
        ("unpaid_amount", DNum (Trend.unpaid_amount x))].

Definition profit_data (x : Profit.t) : data :=
  DObj [("total_amount", DNum (Profit.total_amount x));
        ("amount_paid", DNum (Profit.amount_paid x));
        ("unpaid_amount", DNum (Profit.unpaid_amount x))].

Definition bucket_data (x : Bucket.t) : data :=
  DObj [("count", DNum (Bucket.count x));
        ("total_amount", DNum (Bucket.total_amount x))].

Definition customer_type_data (x : CustomerType.t) : data :=
  DObj [("customer_type", DStr (CustomerType.customer_type x));
        ("count", DNum (CustomerType.count x));
        ("total_amount", DNum (CustomerType.total_amount x))].

Definition cancellation_data (x : Cancellation.t) : data :=
  DObj [("type", DStr (Cancellation.type x));
        ("order_id", of_value (Cancellation.order_id x));
        ("total", DNum (Cancellation.total x));
        ("created_at", time_data (Cancellation.created_at x))].

(** The object literal given to [res.status(200).json]. *)
Definition report_data (r : Report.t) : data :=
  DObj [("products", DArr (map product_data (Report.products r)));
        ("cities", DArr (map city_data (Report.cities r)));
        ("trends", DArr (map trend_data (Report.trends r)));
        ("profitability", profit_data (Report.profitability r));
        ("quotations",
         DObj (map (fun e : string * Bucket.t => (fst e, bucket_data (snd e)))
                   (Obj.entries (Report.quotations r))));
        ("customer_types",
         DArr (map customer_type_data (Report.customer_types r)));
        ("cancellations",
         DArr (map cancellation_data (Report.cancellations r)))].

(** The object literal given to [res.status(500).json]. *)
Definition failure_data (message : string) : data :=
  DObj [("message", DStr "Failed to fetch sales analysis");
        ("error", DStr message)].

Module Response.
Record t : Type := { status : Z; body : data }.
End Response.

Notation "x <- e ;; k" := (bind e (fun x => k))
  (at level 61, e at next level, right associativity).

(** The [try] block: the statements in the order of the source, each result
    processed as soon as it is there; the first error ends the block. *)
Definition analysis (p : pool) : result Report.t :=
  validateProducts <- query_validateProducts p ;;
  products <- query_products p ;;
  let productData := productData products in
  cityBookings <- query_cityBookings p ;;
  cityQuotations <- query_cityQuotations p ;;
  let cityData := cityData cityBookings cityQuotations in
  historical <- query_historical p ;;
  let trendDataArray := trendDataArray historical in
  profitability <- query_profitability p ;;
  let profitData := profitData profitability in
  quotations <- query_quotations p ;;
  let quotationSummary := quotationSummary quotations in
  customerTypes <- query_customerTypes p ;;
  let customerTypeData := customerTypeData customerTypes in
  cancellations <- query_cancellations p ;;
  let cancellationData := cancellationData cancellations in
  Ok {| Report.products := productData;
        Report.cities := cityData;
        Report.trends := trendDataArray;
        Report.profitability := profitData;
        Report.quotations := quotationSummary;
        Report.customer_types := customerTypeData;
        Report.cancellations := cancellationData |}.

(** [getSalesAnalysis]: the [try] block and its [catch]. *)
Definition getSalesAnalysis (p : pool) : Response.t :=
  match analysis p with
  | Ok r => {| Response.status := 200; Response.body := report_data r |}
  | Error message =>
      {| Response.status := 500; Response.body := failure_data message |}
  end.

End Controller.

(* ===================================================================== *)
(** ** The upload settings of [server.js] *)
(* ===================================================================== *)

Module Server.

Import Js.
Import Pg.

(** *** [path.extname], as POSIX paths have it

    The scan runs from the last character to the first and keeps five
    variables; it stops at the separator that ends the last component. *)
Record scan : Type := {
  startDot : Z;
  startPart : Z;
  end_ : Z;
  matchedSlash : bool;
  preDotState : Z
}.

Definition scan_start : scan :=
  {| startDot := -1; startPart := 0; end_ := -1; matchedSlash := true;
     preDotState := 0 |}.

(** The first non-separator seen marks the end of the extension. *)
Definition mark_end (i : Z) (s : scan) : scan :=
  if end_ s =? -1 then
    {| startDot := startDot s; startPart := startPart s; end_ := i + 1;
       matchedSlash := false; preDotState := preDotState s |}
  else s.

Definition see_dot (i : Z) (s : scan) : scan :=
  if startDot s =? -1 then
    {| startDot := i; startPart := startPart s; end_ := end_ s;
       matchedSlash := matchedSlash s; preDotState := preDotState s |}
  else if negb (preDotState s =? 1) then
    {| startDot := startDot s; startPart := startPart s; end_ := end_ s;
       matchedSlash := matchedSlash s; preDotState := 1 |}
  else s.

Definition see_other (s : scan) : scan :=
  if negb (startDot s =? -1) then
    {| startDot := startDot s; startPart := startPart s; end_ := end_ s;
       matchedSlash := matchedSlash s; preDotState := -1 |}
  else s.

(** The loop, on the characters from index [i] down to 0. *)
Fixpoint extname_loop (backwards : list ascii) (i : Z) (s : scan) : scan :=
  match backwards with
  | [] => s
  | c :: rest =>
      if Ascii.eqb c "/" then
        if negb (matchedSlash s) then
          {| startDot := startDot s; startPart := i + 1; end_ := end_ s;
             matchedSlash := matchedSlash s; preDotState := preDotState s |}
        else extname_loop rest (i - 1) s
      else
        let s1 := mark_end i s in
        let s2 := if Ascii.eqb c "." then see_dot i s1 else see_other s1 in
        extname_loop rest (i - 1) s2
  end.

(** [path.extname(path)] *)
Definition extname (path : string) : string :=
  let s := extname_loop (rev (list_ascii_of_string path))
             (Z.of_nat (String.length path) - 1) scan_start in
  if (startDot s =? -1) || (end_ s =? -1) || (preDotState s =? 0)
     || ((preDotState s =? 1) && (startDot s =? end_ s - 1)
         && (startDot s =? startPart s + 1))
  then EmptyString
  else String.substring (Z.to_nat (startDot s))
         (Z.to_nat (end_ s - startDot s)) path.

(** *** The file filter *)

(** [needle] is found in [hay]. *)
Fixpoint contains (needle hay : string) : bool :=
  String.prefix needle hay
  || match hay with
     | String _ rest => contains needle rest
     | EmptyString => false
     end.

(** [/jpeg|jpg|png/.test(s)] *)
Definition filetypes_test (s : string) : bool :=
  contains "jpeg" s || contains "jpg" s || contains "png" s.

Module File.
Record t : Type := { originalname : string; mimetype : string }.
End File.

(** [fileFilter]: what it hands to its callback, acceptance or an error. *)
Definition fileFilter (file : File.t) : result bool :=
  let extname := filetypes_test (lower (extname (File.originalname file))) in
  let mimetype := filetypes_test (File.mimetype file) in
  if extname && mimetype then Ok true
  else Error "Only JPEG/PNG images are allowed".

(** [filename]: the name a stored upload gets, [now] being [Date.now()]. *)
Definition filename (now : Z) (file : File.t) : string :=
  (nat_text now ++ "-" ++ File.originalname file)%string.

(** [limits.fileSize] *)
Definition fileSize : Z := 5 * 1024 * 1024.

End Server.

(* ===================================================================== *)
(** ** Sample stores *)
(* ===================================================================== *)

Module Samples.

Import Js.
Import Pg.
Import Controller.

Definition no_fault : query -> option string := fun _ => None.

Definition booking (id : string) (district : option string) (status : string)
  (total paid : option numeric) (at_ : Z) : Booking.t :=
  {| Booking.order_id := VStr id;
     Booking.district := district;
     Booking.status := Some status;
     Booking.total := total;
     Booking.amount_paid := paid;
     Booking.customer_type := Some "retail";
     Booking.created_at := Some at_;
     Booking.products := Some (JArray []) |}.

Definition quotation (id : string) (district : option string) (status : option string)
  (total : option numeric) (at_ : Z) : Quotation.t :=
  {| Quotation.quotation_id := VStr id;
     Quotation.district := district;
     Quotation.status := status;
     Quotation.total := total;
     Quotation.created_at := Some at_;
     Quotation.products := Some (JArray []) |}.

(** One order without district, booked, total 50; one quotation of district
    X, pending, total 30. *)
Definition regional_pool : pool :=
  {| store :=
       {| bookings := [booking "B1" None "booked" (Some (Dec 50 0)) None 1709251200];
          fwcquotations :=
            [quotation "Q1" (Some "X") (Some "pending") (Some (Dec 30 0)) 1709337600] |};
     fault := no_fault |}.

(** One order of district X, paid, total 100, amount paid 150. *)
Definition overpaid_pool : pool :=
  {| store :=
       {| bookings :=
            [booking "B1" (Some "X") "paid" (Some (Dec 100 0)) (Some (Dec 150 0))
               1709251200];
          fwcquotations := [] |};
     fault := no_fault |}.

(** The same store behind a connection that is lost at the fifth statement. *)
Definition broken_pool : pool :=
  {| store := store overpaid_pool;
     fault := fun q =>
       match q with
       | Historical => Some "Connection terminated unexpectedly"
       | _ => None
       end |}.

(** One booked order of district X whose total is the numeric NaN. *)
Definition nan_pool : pool :=
  {| store :=
       {| bookings :=
            [booking "B1" (Some "X") "booked" (Some NumNaN) (Some (Dec 20 0))
               1709251200];
          fwcquotations := [] |};
     fault := no_fault |}.

(** An order whose [products] is NULL, its status written in capitals or in
    small letters. *)
Definition unlisted (status : string) : Booking.t :=
  {| Booking.order_id := VStr "B1";
     Booking.district := Some "X";
     Booking.status := Some status;
     Booking.total := Some (Dec 10 0);
     Booking.amount_paid := None;
     Booking.customer_type := None;
     Booking.created_at := Some 1709251200;
     Booking.products := None |}.

Definition unlisted_db (status : string) : db :=
  {| bookings := [unlisted status]; fwcquotations := [] |}.

(** A booked order with the line items [items]. *)
Definition order_of (items : list jelem) : Booking.t :=
  {| Booking.order_id := VStr "B1";
     Booking.district := Some "X";
     Booking.status := Some "booked";
     Booking.total := Some (Dec 10 0);
     Booking.amount_paid := None;
     Booking.customer_type := None;
     Booking.created_at := Some 1709251200;
     Booking.products := Some (JArray items) |}.

Definition items_pool (items : list jelem) : pool :=
  {| store := {| bookings := [order_of items]; fwcquotations := [] |};
     fault := no_fault |}.

(** A line item with both keys, one without quantity, one without name. *)
Definition rocket_and_nameless : list jelem :=
  [ EObject [("productname", FString "Rocket"); ("quantity", FNumber (Dec 10 0))];
    EObject [("productname", FString "Wheel")];
    EObject [("quantity", FNumber (Dec 3 0))] ].

(** A store with nothing confirmed: one canceled order whose [products] is
    no array, one pending quotation. *)
Definition canceled_only_pool : pool :=
  {| store :=
       {| bookings :=
            [ {| Booking.order_id := VStr "B1";
                 Booking.district := Some "X";
                 Booking.status := Some "Canceled";
                 Booking.total := Some (Dec 1250 2);
                 Booking.amount_paid := None;
                 Booking.customer_type := Some "retail";
                 Booking.created_at := Some 1709251200;
                 Booking.products := Some JObject |} ];
          fwcquotations :=
            [quotation "Q1" (Some "X") (Some "pending") (Some (Dec 30 0)) 1709337600] |};
     fault := no_fault |}.

End Samples.

(* ===================================================================== *)
(** ** Vocabulary of the statements *)
(* ===================================================================== *)

Module Terms.

Import Js.
Import Pg.
Import Controller.

(** The sum of a list of numbers, as a loop adding them to 0 computes it. *)
Definition total (l : list number) : number := fold_left add l zero.





(** The seven facets of the report. *)
Definition facets : list string :=
  ["products"; "cities"; "trends"; "profitability"; "quotations";
   "customer_types"; "cancellations"].

(** The three buckets of the conversion facet. *)
Definition recognized : list string := ["pending"; "booked"; "canceled"].

(** What a bucket holds once the rows [rows] were added to it. *)
Definition bucket_sum (rows : list StatusRow.t) : Bucket.t :=
  {| Bucket.count := total (map (fun row => parseInt (StatusRow.count row)) rows);
     Bucket.total_amount :=
       total (map (fun row => or0 (parseFloat (StatusRow.total_amount row))) rows) |}.

(** The rows step 6 adds to the bucket [name]: those it reads the status
    [name] from. *)
Definition rows_under (name : string) (rows : list StatusRow.t) : list StatusRow.t :=
  filter (fun row => String.eqb (status_of row) name) rows.

(** The rows whose status is [name]; a row without status is among none. *)
Definition rows_named (name : string) (rows : list StatusRow.t) : list StatusRow.t :=
  filter (fun row =>
            match StatusRow.status row with
            | Some s => String.eqb s name
            | None => false
            end)
         rows.

(** The conversion facet as stated: each bucket holds the rows of its name,
    and a row of another or of no status is in no bucket. *)
Definition buckets_by_name (rows : list StatusRow.t) : Prop :=
  forall name, In name recognized ->
    Obj.get name (quotationSummary rows) = Some (bucket_sum (rows_named name rows)).

(** A quotation group without status, as the query of step 6 returns it. *)
Definition no_status_row : StatusRow.t :=
  {| StatusRow.status := None;
     StatusRow.count := VStr "2";
     StatusRow.total_amount := VStr "10" |}.


(** The summary after the rows [seen]: the three buckets, each with the
    rows read under its name. *)
Definition summed (seen : list StatusRow.t) (summary : Obj.t Bucket.t) : Prop :=
  Obj.names summary = recognized
  /\ forall name, In name recognized ->
       Obj.get name summary = Some (bucket_sum (rows_under name seen)).






(** A store with every status respelled by [f]. *)
Definition respell_booking (f : string -> string) (b : Booking.t) : Booking.t :=
  {| Booking.order_id := Booking.order_id b;
     Booking.district := Booking.district b;
     Booking.status := option_map f (Booking.status b);
     Booking.total := Booking.total b;
     Booking.amount_paid := Booking.amount_paid b;
     Booking.customer_type := Booking.customer_type b;
     Booking.created_at := Booking.created_at b;
     Booking.products := Booking.products b |}.

Definition respell_quotation (f : string -> string) (q : Quotation.t)
  : Quotation.t :=
  {| Quotation.quotation_id := Quotation.quotation_id q;
     Quotation.district := Quotation.district q;
     Quotation.status := option_map f (Quotation.status q);
     Quotation.total := Quotation.total q;
     Quotation.created_at := Quotation.created_at q;
     Quotation.products := Quotation.products q |}.

Definition respell (f : string -> string) (d : db) : db :=
  {| bookings := map (respell_booking f) (bookings d);
     fwcquotations := map (respell_quotation f) (fwcquotations d) |}.

(** Writing a word in capitals. *)
Definition upper_char (c : ascii) : ascii :=
  let n := code c in
  if (Z.leb 97 n && Z.leb n 122)%bool then ascii_of_N (Z.to_N (n - 32)) else c.

Fixpoint upper (s : string) : string :=
  match s with
  | EmptyString => EmptyString
  | String c r => String (upper_char c) (upper r)
  end.

(** The number a numeral reads as, digit after digit from [acc]. *)
Fixpoint reading (acc : Z) (d : Decimal.uint) : Z :=
  match d with
  | Decimal.Nil => acc
  | Decimal.D0 r => reading (10 * acc) r
  | Decimal.D1 r => reading (10 * acc + 1) r
  | Decimal.D2 r => reading (10 * acc + 2) r
  | Decimal.D3 r => reading (10 * acc + 3) r
  | Decimal.D4 r => reading (10 * acc + 4) r
  | Decimal.D5 r => reading (10 * acc + 5) r
  | Decimal.D6 r => reading (10 * acc + 6) r
  | Decimal.D7 r => reading (10 * acc + 7) r
  | Decimal.D8 r => reading (10 * acc + 8) r
  | Decimal.D9 r => reading (10 * acc + 9) r
  end.

(** The number a [numeric] of the store denotes. *)
Definition numeric_number (a : numeric) : number :=
  match a with
  | NumNaN => NaN
  | Dec u s => Fin (Qred (Qmake u (Z.to_pos (10 ^ Z.of_nat s))))
  end.









(** The quotations step 6 counts in the bucket [name]. *)
Definition quotations_under (name : string) (d : db) : list Quotation.t :=
  filter (fun q => String.eqb (or_str (LOWER (Quotation.status q)) "canceled") name)
         (fwcquotations d).



(** The place of a statement in the source. *)
Definition position (q : query) : nat :=
  match q with
  | ValidateProducts => 0
  | Products => 1
  | CityBookings => 2
  | CityQuotations => 3
  | Historical => 4
  | Profitability => 5
  | Quotations => 6
  | CustomerTypes => 7
  | Cancellations => 8
  end.

(** A store with the [products] column rewritten by [f] and [g] where no
    statement but the probe of step 1 looks at it: in every quotation, and
    in the orders that are not confirmed. *)
Definition rewrite_quotation (g : Quotation.t -> option jsonb) (q : Quotation.t)
  : Quotation.t :=
  {| Quotation.quotation_id := Quotation.quotation_id q;
     Quotation.district := Quotation.district q;
     Quotation.status := Quotation.status q;
     Quotation.total := Quotation.total q;
     Quotation.created_at := Quotation.created_at q;
     Quotation.products := g q |}.

Definition rewrite_booking (f : Booking.t -> option jsonb) (b : Booking.t)
  : Booking.t :=
  if where_confirmed b then b
  else {| Booking.order_id := Booking.order_id b;
          Booking.district := Booking.district b;
          Booking.status := Booking.status b;
          Booking.total := Booking.total b;
          Booking.amount_paid := Booking.amount_paid b;
          Booking.customer_type := Booking.customer_type b;
          Booking.created_at := Booking.created_at b;
          Booking.products := f b |}.

Definition rewrite_products (f : Booking.t -> option jsonb)
  (g : Quotation.t -> option jsonb) (p : pool) : pool :=
  {| store :=
       {| bookings := map (rewrite_booking f) (bookings (store p));
          fwcquotations := map (rewrite_quotation g) (fwcquotations (store p)) |};
     fault := fault p |}.






End Terms.

(* ===================================================================== *)
(** ** Facts about plain objects used as maps *)
(* ===================================================================== *)

Local Open Scope list_scope.

Module ObjFacts.

Section Facts.
Context {V : Type}.
Implicit Types (o : Obj.t V) (k : string) (v : V).



Lemma get_modify_same k f o :
  Obj.get k (Obj.modify k f o) = option_map f (Obj.get k o).
Proof.
  induction o as [|[k' v'] o IH]; simpl; auto.
  destruct (String.eqb k k') eqn:E; simpl; rewrite E; auto.
Qed.

Lemma get_modify_other k k' f o :
  k <> k' -> Obj.get k' (Obj.modify k f o) = Obj.get k' o.
Proof.
  intros N. induction o as [|[k0 v0] o IH]; simpl; auto.
  destruct (String.eqb k k0) eqn:E; simpl.
  - apply String.eqb_eq in E. subst k0.
    destruct (String.eqb k' k) eqn:E'; auto.
    apply String.eqb_eq in E'. congruence.
  - destruct (String.eqb k' k0); auto.
Qed.

Lemma keys_modify k f o : Obj.names (Obj.modify k f o) = Obj.names o.
Proof.
  induction o as [|[k' v'] o IH]; simpl; auto.
  destruct (String.eqb k k'); simpl; congruence.
Qed.











End Facts.

Lemma Sorted_adjacent_pairs {A : Type} (R : A -> A -> Prop) (l : list A) :
  Sorted R l ->
  forall i x y, nth_error l i = Some x -> nth_error l (S i) = Some y -> R x y.
Proof.
  induction 1 as [|a l S IH H]; intros i x y Hx Hy.
  - destruct i; discriminate.
  - destruct i as [|i]; simpl in Hx, Hy.
    + injection Hx as <-. destruct l as [|b l]; [discriminate |].
      simpl in Hy. injection Hy as <-. now inversion H.
    + eapply IH; eauto.
Qed.

End ObjFacts.

(* ===================================================================== *)
(** ** The [try] block, read backwards from its result *)
(* ===================================================================== *)

Module Assembly.

Import Js.
Import Pg.
Import Controller.

Lemma pool_query_Ok {A : Type} (p : pool) (q : query) (answer : result A) (a : A) :
  pool_query p q answer = Ok a -> fault p q = None /\ answer = Ok a.
Proof.
  unfold pool_query. destruct (fault p q); [discriminate | auto].
Qed.

Lemma bind_Ok {A B : Type} (r : result A) (k : A -> result B) (b : B) :
  bind r k = Ok b -> exists a, r = Ok a /\ k a = Ok b.
Proof.
  destruct r as [a | msg]; simpl; [eauto | discriminate].
Qed.

(** The report of a block that ran to its end: no statement raised, and each
    facet is its step applied to the rows of its query. *)
Lemma analysis_Ok (p : pool) (r : Report.t) :
  analysis p = Ok r ->
  (forall q, raised p q = None) /\
  exists products,
    select_products (store p) = Ok products /\
    r = {| Report.products := productData products;
           Report.cities :=
             cityData (select_cityBookings (store p))
                      (select_cityQuotations (store p));
           Report.trends := trendDataArray (select_historical (store p));
           Report.profitability := profitData (select_profitability (store p));
           Report.quotations := quotationSummary (select_quotations (store p));
           Report.customer_types :=
             customerTypeData (select_customerTypes (store p));
           Report.cancellations :=
             cancellationData (select_cancellations (store p)) |}.
Proof.
  unfold analysis. intros H.
  apply bind_Ok in H as [r1 [Q1 H]].
  apply bind_Ok in H as [r2 [Q2 H]].
  apply bind_Ok in H as [r3 [Q3 H]].
  apply bind_Ok in H as [r4 [Q4 H]].
  apply bind_Ok in H as [r5 [Q5 H]].
  apply bind_Ok in H as [r6 [Q6 H]].
  apply bind_Ok in H as [r7 [Q7 H]].
  apply bind_Ok in H as [r8 [Q8 H]].
  apply bind_Ok in H as [r9 [Q9 H]].
  split.
  - intros []; unfold raised; simpl;
      [rewrite Q1 | rewrite Q2 | rewrite Q3 | rewrite Q4 | rewrite Q5
      | rewrite Q6 | rewrite Q7 | rewrite Q8 | rewrite Q9]; reflexivity.
  - apply pool_query_Ok in Q2 as [_ Q2].
    apply pool_query_Ok in Q3 as [_ Q3].
    apply pool_query_Ok in Q4 as [_ Q4].
    apply pool_query_Ok in Q5 as [_ Q5].
    apply pool_query_Ok in Q6 as [_ Q6].
    apply pool_query_Ok in Q7 as [_ Q7].
    apply pool_query_Ok in Q8 as [_ Q8].
    apply pool_query_Ok in Q9 as [_ Q9].
    exists r2. split; [exact Q2 |].
    injection Q3 as <-. injection Q4 as <-. injection Q5 as <-.
    injection Q6 as <-. injection Q7 as <-. injection Q8 as <-.
    injection Q9 as <-. now injection H as <-.
Qed.

(** A response with status 200 carries the report of the block. *)
Lemma success_report (p : pool) :
  Response.status (getSalesAnalysis p) = 200 ->
  exists r, analysis p = Ok r
            /\ Response.body (getSalesAnalysis p) = report_data r.
Proof.
  unfold getSalesAnalysis. destruct (analysis p) as [r | msg]; simpl.
  - eauto.
  - discriminate.
Qed.

End Assembly.

(* ===================================================================== *)
(** ** Step 3: the regional merge *)
(* ===================================================================== *)

Module Cities.

Import Js.
Import Pg.
Import Controller.
Import Terms.
Import ObjFacts.

Lemma total_snoc (l : list number) (x : number) :
  total (l ++ [x]) = add (total l) x.
Proof. unfold total. now rewrite fold_left_app. Qed.




















(** C1, at the scenario of the specification (one booked order without
    district, total 50; one pending quotation of district X, total 30): the
    order is counted in the quotation slots of Unknown, its booking slots
    stay at 0. *)
Theorem regional_scenario_cities :
  exists r : Report.t,
    analysis Samples.regional_pool = Ok r
    /\ Report.cities r
       = [ {| City.district := "Unknown";
              City.booking_count := Fin 0;
              City.quotation_count := Fin 1;
              City.booking_amount := Fin 0;
              City.quotation_amount := Fin 50 |};
           {| City.district := "X";
              City.booking_count := Fin 0;
              City.quotation_count := Fin 1;
              City.booking_amount := Fin 0;
              City.quotation_amount := Fin 30 |} ].
Proof. eexists. split; vm_compute; reflexivity. Qed.

End Cities.

(* ===================================================================== *)
(** ** Steps 4 and 5: trends and profitability *)
(* ===================================================================== *)

Module Amounts.

Import Js.
Import Pg.
Import Controller.

Lemma or0_not_nan (a : number) : is_nan (or0 a) = false.
Proof. destruct a; reflexivity || (unfold or0; simpl; now destruct (Qeq_bool q 0)). Qed.

Lemma leb_refl (a : number) : is_nan a = false -> leb a a = true.
Proof.
  destruct a; simpl; try reflexivity; try discriminate.
  intros _. apply Qle_bool_iff, Qle_refl.
Qed.

Lemma min_leb_r (a b : number) :
  is_nan a = false -> is_nan b = false -> leb (min a b) b = true.
Proof.
  intros A B. unfold min.
  destruct a; try discriminate; destruct b; try discriminate;
    match goal with
    | |- leb (if ?c then _ else _) _ = true =>
        destruct c eqn:E; [exact E | now apply leb_refl]
    end.
Qed.

Lemma max_zero_leb (a : number) : is_nan a = false -> leb zero (max zero a) = true.
Proof.
  intros A. unfold max, zero.
  destruct a; try discriminate;
    match goal with
    | |- leb _ (if ?c then _ else _) = true =>
        destruct c eqn:E; [exact E | reflexivity]
    end.
Qed.

Lemma sub_finite (a b : number) : finite a -> finite b -> is_nan (sub a b) = false.
Proof. destruct a, b; simpl; tauto. Qed.

(** X1. Step 4 caps the paid amount: in every trend point the amount paid is
    at most the total, and the unpaid amount, when both sums are finite, is
    at least 0. *)
Lemma trend_point_capped (row : TrendRow.t) :
  leb (Trend.amount_paid (trend_point row)) (Trend.total_amount (trend_point row))
  = true
  /\ (finite (Trend.total_amount (trend_point row)) ->
      finite (or0 (parseFloat (TrendRow.amount_paid row))) ->
      leb zero (Trend.unpaid_amount (trend_point row)) = true).
Proof.
  unfold trend_point. simpl. split.
  - apply min_leb_r; apply or0_not_nan.
  - intros F1 F2. apply max_zero_leb. now apply sub_finite.
Qed.

(** X2. Step 4 never lets NaN through: volume, total and amount paid of a
    trend point are numbers whatever the row holds. *)
Lemma trend_point_numeric (row : TrendRow.t) :
  is_nan (Trend.volume (trend_point row)) = false
  /\ is_nan (Trend.total_amount (trend_point row)) = false
  /\ is_nan (Trend.amount_paid (trend_point row)) = false.
Proof.
  unfold trend_point. simpl. repeat split; try apply or0_not_nan.
  pose proof (or0_not_nan (parseFloat (TrendRow.amount_paid row))) as A.
  pose proof (or0_not_nan (parseFloat (TrendRow.total_amount row))) as B.
  destruct (or0 (parseFloat (TrendRow.amount_paid row)));
    destruct (or0 (parseFloat (TrendRow.total_amount row)));
    try discriminate; unfold min;
    match goal with
    | |- is_nan (if ?c then _ else _) = false => now destruct c
    end.
Qed.

(** C2, at the scenario of the specification (one paid order, total 100,
    amount paid 150): the trend point of the month is capped, the
    profitability record is not and reports 150 paid out of 100. *)
Theorem overpaid_scenario_profitability :
  exists r : Report.t,
    analysis Samples.overpaid_pool = Ok r
    /\ Report.profitability r
       = {| Profit.total_amount := Fin 100;
            Profit.amount_paid := Fin 150;
            Profit.unpaid_amount := Fin 0 |}
    /\ Report.trends r
       = [ {| Trend.month := Some "2024-03";
              Trend.volume := Fin 1;
              Trend.total_amount := Fin 100;
              Trend.amount_paid := Fin 100;
              Trend.unpaid_amount := Fin 0 |} ].
Proof. eexists. repeat split; vm_compute; reflexivity. Qed.

(** C6, on a store with one booked order whose total is the numeric NaN: the
    server sends the text NaN, step 3 adds [parseFloat] of it as it is and
    the entry of the district holds NaN; steps 4 and 5 read the same sum
    as 0. *)
Theorem nan_total_reaches_cities :
  exists r : Report.t,
    analysis Samples.nan_pool = Ok r
    /\ Report.cities r
       = [ {| City.district := "X";
              City.booking_count := Fin 0;
              City.quotation_count := Fin 1;
              City.booking_amount := Fin 0;
              City.quotation_amount := NaN |} ]
    /\ Report.trends r
       = [ {| Trend.month := Some "2024-03";
              Trend.volume := Fin 1;
              Trend.total_amount := Fin 0;
              Trend.amount_paid := Fin 0;
              Trend.unpaid_amount := Fin 0 |} ]
    /\ Report.profitability r
       = {| Profit.total_amount := Fin 0;
            Profit.amount_paid := Fin 20;
            Profit.unpaid_amount := Fin 0 |}.
Proof. eexists. repeat split; vm_compute; reflexivity. Qed.

End Amounts.

(* ===================================================================== *)
(** ** The status tests of the queries *)
(* ===================================================================== *)

Module Statuses.

Import Js.
Import Pg.
Import Controller.
Import Terms.

(** A test on [LOWER(status)] cannot tell two spellings of one word apart. *)
Lemma lowered_status_in (s s' : string) (l : list string) :
  lower s = lower s' ->
  status_in (LOWER (Some s)) l = status_in (LOWER (Some s')) l.
Proof. intros E. simpl. now rewrite E. Qed.

Section Respelling.

Context {A : Type} (g : A -> A).

Lemma filter_respelled (p : A -> bool) (l : list A) :
  (forall x, p (g x) = p x) -> filter p (map g l) = map g (filter p l).
Proof.
  intros H. induction l as [|x l IH]; simpl; auto.
  rewrite H. destruct (p x); simpl; now rewrite IH.
Qed.

Lemma group_by_respelled {K : Type} (eqb : K -> K -> bool) (key : A -> K)
  (l : list A) :
  (forall x, key (g x) = key x) ->
  group_by eqb key (map g l)
  = map (fun gr => (fst gr, map g (snd gr))) (group_by eqb key l).
Proof.
  intros H. unfold group_by. rewrite !map_map.
  rewrite (map_ext (fun x => key (g x)) key H).
  apply map_ext. intros k. simpl. f_equal.
  apply filter_respelled. intros x. now rewrite H.
Qed.

End Respelling.

Lemma order_insert_map {A B : Type} (h : A -> B) (le : A -> A -> bool)
  (le' : B -> B -> bool) (x : A) (l : list A) :
  (forall a b, le' (h a) (h b) = le a b) ->
  order_insert le' (h x) (map h l) = map h (order_insert le x l).
Proof.
  intros H. induction l as [|y l IH]; simpl; auto.
  rewrite H. destruct (le x y); simpl; now rewrite ?IH.
Qed.

Lemma order_by_map {A B : Type} (h : A -> B) (le : A -> A -> bool)
  (le' : B -> B -> bool) (l : list A) :
  (forall a b, le' (h a) (h b) = le a b) ->
  order_by le' (map h l) = map h (order_by le l).
Proof.
  intros H. unfold order_by. induction l as [|x l IH]; simpl; auto.
  rewrite IH. now apply order_insert_map.
Qed.

Section Spelling.

Context (f : string -> string).
Hypothesis same_word : forall s, lower (f s) = lower s.

Lemma LOWER_respelled (o : option string) : LOWER (option_map f o) = LOWER o.
Proof. destruct o; simpl; now rewrite ?same_word. Qed.

Lemma where_confirmed_respelled (b : Booking.t) :
  where_confirmed (respell_booking f b) = where_confirmed b.
Proof. unfold where_confirmed. simpl. now rewrite LOWER_respelled. Qed.

Lemma where_pipeline_respelled (q : Quotation.t) :
  where_pipeline (respell_quotation f q) = where_pipeline q.
Proof. unfold where_pipeline. simpl. now rewrite LOWER_respelled. Qed.

Lemma where_customer_respelled (b : Booking.t) :
  where_customer (respell_booking f b) = where_customer b.
Proof. unfold where_customer. now rewrite where_confirmed_respelled. Qed.

Lemma where_canceled_booking_respelled (b : Booking.t) :
  where_canceled_booking (respell_booking f b) = where_canceled_booking b.
Proof. unfold where_canceled_booking. simpl. now rewrite LOWER_respelled. Qed.

Lemma where_canceled_quotation_respelled (q : Quotation.t) :
  where_canceled_quotation (respell_quotation f q) = where_canceled_quotation q.
Proof. unfold where_canceled_quotation. simpl. now rewrite LOWER_respelled. Qed.

(** X5. Every statement but the probe of step 1 reads the status through
    [LOWER] only: respelling the statuses of the store in another letter
    case changes none of their results. *)
Theorem lowered_queries_ignore_case (d : db) :
  select_products (respell f d) = select_products d
  /\ select_cityBookings (respell f d) = select_cityBookings d
  /\ select_cityQuotations (respell f d) = select_cityQuotations d
  /\ select_historical (respell f d) = select_historical d
  /\ select_profitability (respell f d) = select_profitability d
  /\ select_quotations (respell f d) = select_quotations d
  /\ select_customerTypes (respell f d) = select_customerTypes d
  /\ select_cancellations (respell f d) = select_cancellations d.
Proof.
  repeat split.
  - unfold select_products, respell. simpl.
    rewrite (filter_respelled _ _ _ where_confirmed_respelled).
    f_equal. induction (filter where_confirmed (bookings d)) as [|b l IH];
      simpl; auto.
    now rewrite IH.
  - unfold select_cityBookings, respell. simpl.
    rewrite (filter_respelled _ _ _ where_confirmed_respelled).
    rewrite group_by_respelled by reflexivity.
    rewrite map_map. apply map_ext. intros [k l]. simpl.
    now rewrite length_map, map_map.
  - unfold select_cityQuotations, respell. simpl.
    rewrite (filter_respelled _ _ _ where_pipeline_respelled).
    rewrite group_by_respelled by reflexivity.
    rewrite map_map. apply map_ext. intros [k l]. simpl.
    now rewrite length_map, map_map.
  - unfold select_historical, respell. simpl.
    rewrite (filter_respelled _ _ _ where_confirmed_respelled).
    rewrite group_by_respelled by reflexivity.
    rewrite (order_by_map _
               (fun g1 g2 : option Z * list Booking.t => asc (fst g1) (fst g2)))
      by reflexivity.
    rewrite map_map. apply map_ext. intros [k l]. simpl.
    now rewrite length_map, !map_map.
  - unfold select_profitability, respell. simpl.
    rewrite (filter_respelled _ _ _ where_confirmed_respelled).
    now rewrite !map_map.
  - unfold select_quotations, respell. simpl.
    rewrite group_by_respelled
      by (intros q; simpl; apply LOWER_respelled).
    rewrite map_map. apply map_ext. intros [k l]. simpl.
    now rewrite length_map, map_map.
  - unfold select_customerTypes, respell. simpl.
    rewrite (filter_respelled _ _ _ where_customer_respelled).
    rewrite group_by_respelled by reflexivity.
    rewrite map_map. apply map_ext. intros [k l]. simpl.
    now rewrite length_map, map_map.
  - unfold select_cancellations, union_canceled, respell. simpl.
    rewrite (filter_respelled _ _ _ where_canceled_booking_respelled).
    rewrite (filter_respelled _ _ _ where_canceled_quotation_respelled).
    now rewrite !map_map.
Qed.

End Spelling.

Lemma lower_upper_char (c : ascii) : lower_char (upper_char c) = lower_char c.
Proof. destruct c as [[] [] [] [] [] [] [] []]; reflexivity. Qed.

Lemma lower_upper (s : string) : lower (upper s) = lower s.
Proof.
  induction s as [|c s IH]; simpl; auto.
  now rewrite lower_upper_char, IH.
Qed.

Lemma lowered_queries_ignore_case_witness :
  select_products (respell upper (store Samples.regional_pool))
  = select_products (store Samples.regional_pool)
  /\ select_cityBookings (respell upper (store Samples.regional_pool))
     = select_cityBookings (store Samples.regional_pool)
  /\ select_cityQuotations (respell upper (store Samples.regional_pool))
     = select_cityQuotations (store Samples.regional_pool)
  /\ select_historical (respell upper (store Samples.regional_pool))
     = select_historical (store Samples.regional_pool)
  /\ select_profitability (respell upper (store Samples.regional_pool))
     = select_profitability (store Samples.regional_pool)
  /\ select_quotations (respell upper (store Samples.regional_pool))
     = select_quotations (store Samples.regional_pool)
  /\ select_customerTypes (respell upper (store Samples.regional_pool))
     = select_customerTypes (store Samples.regional_pool)
  /\ select_cancellations (respell upper (store Samples.regional_pool))
     = select_cancellations (store Samples.regional_pool).
Proof.
  apply (lowered_queries_ignore_case upper lower_upper
           (store Samples.regional_pool)).
Defined.

(** C4, on an order with [products] NULL: written BOOKED it passes the
    [WHERE] clause of steps 2 to 5 and 7 as it does written booked, but the
    probe of step 1, which compares [status] as stored, counts it only in
    small letters. *)
Theorem probe_compares_status_as_stored :
  where_confirmed (Samples.unlisted "BOOKED") = true
  /\ where_confirmed (Samples.unlisted "booked") = true
  /\ where_validate_bookings (Samples.unlisted "BOOKED") = false
  /\ where_validate_bookings (Samples.unlisted "booked") = true
  /\ select_validateProducts (Samples.unlisted_db "BOOKED")
     = [ {| ProbeRow.source := "bookings"; ProbeRow.invalid_count := VStr "0" |};
         {| ProbeRow.source := "fwcquotations"; ProbeRow.invalid_count := VStr "0" |} ]
  /\ select_validateProducts (Samples.unlisted_db "booked")
     = [ {| ProbeRow.source := "bookings"; ProbeRow.invalid_count := VStr "1" |};
         {| ProbeRow.source := "fwcquotations"; ProbeRow.invalid_count := VStr "0" |} ].
Proof. repeat split; vm_compute; reflexivity. Qed.

End Statuses.

(* ===================================================================== *)
(** ** The response: one failure or the whole report *)
(* ===================================================================== *)

Module Failure.

Import Js.
Import Pg.
Import Controller.
Import Terms.

Lemma error_of_None {A : Type} (r : result A) :
  error_of r = None -> exists a, r = Ok a.
Proof. destruct r; simpl; [eauto | discriminate]. Qed.

(** When no statement raises, the block runs to its end. *)
Lemma analysis_runs (p : pool) :
  (forall q, raised p q = None) -> exists r, analysis p = Ok r.
Proof.
  intros H. unfold analysis.
  destruct (error_of_None _ (H ValidateProducts)) as [r1 ->].
  destruct (error_of_None _ (H Products)) as [r2 ->].
  destruct (error_of_None _ (H CityBookings)) as [r3 ->].
  destruct (error_of_None _ (H CityQuotations)) as [r4 ->].
  destruct (error_of_None _ (H Historical)) as [r5 ->].
  destruct (error_of_None _ (H Profitability)) as [r6 ->].
  destruct (error_of_None _ (H Quotations)) as [r7 ->].
  destruct (error_of_None _ (H CustomerTypes)) as [r8 ->].
  destruct (error_of_None _ (H Cancellations)) as [r9 ->].
  simpl. eauto.
Qed.

(** When a statement raises, the block ends with the error of one that
    does: the first in the order of the source. *)
Lemma analysis_aborts (p : pool) :
  (exists q, raised p q <> None) ->
  exists q msg, raised p q = Some msg /\ analysis p = Error msg.
Proof.
  intros [q0 H]. unfold analysis.
  destruct (query_validateProducts p) as [r1 | m] eqn:Q1;
    [| exists ValidateProducts, m; simpl; now rewrite Q1].
  destruct (query_products p) as [r2 | m] eqn:Q2;
    [| exists Products, m; simpl; now rewrite Q2].
  destruct (query_cityBookings p) as [r3 | m] eqn:Q3;
    [| exists CityBookings, m; simpl; now rewrite Q3].
  destruct (query_cityQuotations p) as [r4 | m] eqn:Q4;
    [| exists CityQuotations, m; simpl; now rewrite Q4].
  destruct (query_historical p) as [r5 | m] eqn:Q5;
    [| exists Historical, m; simpl; now rewrite Q5].
  destruct (query_profitability p) as [r6 | m] eqn:Q6;
    [| exists Profitability, m; simpl; now rewrite Q6].
  destruct (query_quotations p) as [r7 | m] eqn:Q7;
    [| exists Quotations, m; simpl; now rewrite Q7].
  destruct (query_customerTypes p) as [r8 | m] eqn:Q8;
    [| exists CustomerTypes, m; simpl; now rewrite Q8].
  destruct (query_cancellations p) as [r9 | m] eqn:Q9;
    [| exists Cancellations, m; simpl; now rewrite Q9].
  exfalso. apply H. destruct q0; simpl;
    [rewrite Q1 | rewrite Q2 | rewrite Q3 | rewrite Q4 | rewrite Q5
    | rewrite Q6 | rewrite Q7 | rewrite Q8 | rewrite Q9]; reflexivity.
Qed.

(** C3. If any statement sent to the store raises, [getSalesAnalysis]
    answers 500 with a body of exactly [message] and [error], the message of
    a statement that raised, and no facet; if none raises it answers 200
    with a body of exactly the seven facets. *)
Theorem one_failure_or_whole_report (p : pool) :
  ((exists q, raised p q <> None) ->
   exists q msg,
     raised p q = Some msg
     /\ getSalesAnalysis p
        = {| Response.status := 500;
             Response.body :=
               DObj [("message", DStr "Failed to fetch sales analysis");
                     ("error", DStr msg)] |}
     /\ forall f, In f facets -> ~ In f (keys (Response.body (getSalesAnalysis p))))
  /\ ((forall q, raised p q = None) ->
      exists r,
        getSalesAnalysis p
        = {| Response.status := 200; Response.body := report_data r |}
        /\ keys (Response.body (getSalesAnalysis p)) = facets).
Proof.
  split.
  - intros H. destruct (analysis_aborts p H) as [q [msg [R A]]].
    exists q, msg. unfold getSalesAnalysis. rewrite A.
    split; [exact R | split; [reflexivity |]].
    simpl. unfold facets. intros f I [E | [E | []]]; subst f;
      simpl in I; intuition discriminate.
  - intros H. destruct (analysis_runs p H) as [r A].
    exists r. unfold getSalesAnalysis. rewrite A. split; reflexivity.
Qed.

Lemma one_failure_or_whole_report_witness :
  (exists q msg,
     raised Samples.broken_pool q = Some msg
     /\ getSalesAnalysis Samples.broken_pool
        = {| Response.status := 500;
             Response.body :=
               DObj [("message", DStr "Failed to fetch sales analysis");
                     ("error", DStr msg)] |}
     /\ forall f, In f facets
                  -> ~ In f (keys (Response.body (getSalesAnalysis Samples.broken_pool))))
  /\ (exists r,
        getSalesAnalysis Samples.overpaid_pool
        = {| Response.status := 200; Response.body := report_data r |}
        /\ keys (Response.body (getSalesAnalysis Samples.overpaid_pool)) = facets).
Proof.
  split.
  - apply (proj1 (one_failure_or_whole_report Samples.broken_pool)).
    exists Historical. simpl. discriminate.
  - apply (proj2 (one_failure_or_whole_report Samples.overpaid_pool)).
    intros []; reflexivity.
Defined.

End Failure.

(* ===================================================================== *)
(** ** Step 6: the conversion buckets *)
(* ===================================================================== *)

Module Conversion.

Import Js.
Import Pg.
Import Controller.
Import Terms.
Import ObjFacts.

Lemma bucket_sum_snoc rows row :
  add_to_bucket row (bucket_sum rows) = bucket_sum (rows ++ [row]).
Proof.
  unfold bucket_sum, add_to_bucket.
  cbn [Bucket.count Bucket.total_amount].
  rewrite !map_app. cbn [map]. now rewrite !Cities.total_snoc.
Qed.

Lemma rows_under_snoc_same name rows row :
  status_of row = name ->
  rows_under name (rows ++ [row]) = rows_under name rows ++ [row].
Proof.
  intros E. unfold rows_under. rewrite filter_app. simpl.
  apply String.eqb_eq in E. now rewrite E.
Qed.

Lemma rows_under_snoc_other name rows row :
  status_of row <> name ->
  rows_under name (rows ++ [row]) = rows_under name rows.
Proof.
  intros E. unfold rows_under. rewrite filter_app. simpl.
  apply String.eqb_neq in E. rewrite E. apply app_nil_r.
Qed.

Lemma summed_init : summed [] quotationSummary_init.
Proof.
  split; [reflexivity |].
  intros name [<- | [<- | [<- | []]]]; reflexivity.
Qed.

Lemma summed_step seen summary row :
  summed seen summary ->
  summed (seen ++ [row]) (quotationSummary_step summary row).
Proof.
  intros [NM BK]. unfold quotationSummary_step.
  destruct (Obj.get (status_of row) summary) as [b|] eqn:G.
  - split; [now rewrite keys_modify |].
    intros name I. destruct (String.eqb_spec (status_of row) name) as [<- | N].
    + rewrite get_modify_same, (BK _ I). simpl.
      now rewrite bucket_sum_snoc, rows_under_snoc_same.
    + rewrite (get_modify_other _ _ _ _ N), (rows_under_snoc_other _ _ _ N).
      now apply BK.
  - split; [exact NM |].
    intros name I. rewrite rows_under_snoc_other; [now apply BK |].
    intros E. rewrite E, (BK _ I) in G. discriminate.
Qed.

Lemma summed_fold rows : forall seen summary,
  summed seen summary ->
  summed (seen ++ rows) (fold_left quotationSummary_step rows summary).
Proof.
  induction rows as [|row rows IH]; intros seen summary H; simpl.
  - now rewrite app_nil_r.
  - replace (seen ++ row :: rows) with ((seen ++ [row]) ++ rows)
      by now rewrite <- app_assoc.
    apply IH. now apply summed_step.
Qed.

Lemma distinct_In {K : Type} (eqb : K -> K -> bool) (l : list K) (k : K) :
  In k (distinct eqb l) -> In k l.
Proof.
  induction l as [|x l IH]; simpl; auto.
  intros [H | H]; auto. apply filter_In in H. right. now apply IH.
Qed.

(** Every group of [GROUP BY] has the key of one of the rows. *)
Lemma group_by_key {A K : Type} (eqb : K -> K -> bool) (key : A -> K)
  (rows : list A) (g : K * list A) :
  In g (group_by eqb key rows) -> exists a, In a rows /\ fst g = key a.
Proof.
  unfold group_by. intros I. apply in_map_iff in I as [k [<- I]].
  apply distinct_In, in_map_iff in I as [a [<- I]]. simpl. eauto.
Qed.

(** C5 as stated fails on a group without status: its rows are added to the
    canceled bucket. *)
Lemma no_status_counts_as_canceled : ~ buckets_by_name [no_status_row].
Proof.
  intros H. specialize (H "canceled" (or_intror (or_intror (or_introl eq_refl)))).
  vm_compute in H. discriminate.
Qed.

(** C5, amended. The three buckets start at zero; each row of the
    status-grouped query, whose status is the lower-cased status of its
    quotations, is added to the bucket of that name when it is pending,
    booked or canceled; a row whose status is [null] or empty is added to
    canceled; a row of any other status is added to none of the three. *)
Theorem buckets_by_status_or_canceled (rows : list StatusRow.t) :
  quotationSummary []
  = [("pending", {| Bucket.count := Fin 0; Bucket.total_amount := Fin 0 |});
     ("booked", {| Bucket.count := Fin 0; Bucket.total_amount := Fin 0 |});
     ("canceled", {| Bucket.count := Fin 0; Bucket.total_amount := Fin 0 |})]
  /\ Obj.names (quotationSummary rows) = ["pending"; "booked"; "canceled"]
  /\ (forall name, In name ["pending"; "booked"; "canceled"] ->
        Obj.get name (quotationSummary rows)
        = Some (bucket_sum (rows_under name rows)))
  /\ (forall row : StatusRow.t,
        status_of row =
        match StatusRow.status row with
        | None => "canceled"
        | Some EmptyString => "canceled"
        | Some s => s
        end)
  /\ (forall (d : db) (row : StatusRow.t),
        In row (select_quotations d) ->
        exists q, In q (fwcquotations d)
                  /\ StatusRow.status row = LOWER (Quotation.status q)).
Proof.
  destruct (summed_fold rows [] _ summed_init) as [NM BK]. simpl in NM, BK.
  split; [reflexivity |].
  split; [exact NM |].
  split; [exact BK |].
  split.
  - intros row. unfold status_of, or_str.
    now destruct (StatusRow.status row) as [[|c s]|].
  - intros d row I. unfold select_quotations in I.
    apply in_map_iff in I as [g [<- I]]. simpl.
    apply group_by_key in I as [q [I E]]. eauto.
Qed.

End Conversion.

(* ===================================================================== *)
(** ** Step 8: cancellations *)
(* ===================================================================== *)

Module Cancellations.

Import Js.
Import Pg.
Import Controller.
Import Terms.

Section OrderBy.

Context {A : Type} (le : A -> A -> bool).
Hypothesis le_total : forall x y, le x y = true \/ le y x = true.

Lemma order_insert_perm (x : A) (l : list A) :
  Permutation (order_insert le x l) (x :: l).
Proof.
  induction l as [|y l IH]; simpl; auto.
  destruct (le x y); auto.
  rewrite IH. apply perm_swap.
Qed.

Lemma order_by_perm (l : list A) : Permutation (order_by le l) l.
Proof.
  induction l as [|x l IH]; simpl; auto.
  rewrite order_insert_perm. now constructor.
Qed.

Lemma order_insert_hd (x y : A) (l : list A) :
  le y x = true ->
  HdRel (fun a b => le a b = true) y l ->
  HdRel (fun a b => le a b = true) y (order_insert le x l).
Proof.
  intros Hyx H. destruct l as [|z l]; simpl.
  - now constructor.
  - inversion H; subst. destruct (le x z); now constructor.
Qed.

Lemma order_insert_sorted (x : A) (l : list A) :
  Sorted (fun a b => le a b = true) l ->
  Sorted (fun a b => le a b = true) (order_insert le x l).
Proof.
  induction 1 as [|y l S IH H]; simpl.
  - repeat constructor.
  - destruct (le x y) eqn:E.
    + constructor; [now constructor | now constructor].
    + constructor; [exact IH |].
      apply order_insert_hd; auto.
      destruct (le_total x y); congruence.
Qed.

(** [ORDER BY] puts every row before a row it may stand before. *)
Lemma order_by_sorted (l : list A) :
  Sorted (fun a b => le a b = true) (order_by le l).
Proof.
  induction l as [|x l IH]; simpl.
  - constructor.
  - now apply order_insert_sorted.
Qed.

End OrderBy.

Lemma desc_total (x y : option Z) : desc x y = true \/ desc y x = true.
Proof.
  destruct x as [a|], y as [b|]; simpl; auto.
  destruct (Z.leb_spec b a); auto. right. apply Z.leb_le. lia.
Qed.

(** C9. The cancellations facet holds the canceled orders, tagged booking,
    and the canceled quotations, tagged quotation, each with its identifier,
    its total read with 0 for NaN, and its timestamp; it is in descending
    order of [created_at] across both sources: of two neighbours the first
    is at least as recent as the second (a missing timestamp counting as the
    most recent, as the store orders it). *)
Theorem cancellations_newest_first (d : db) :
  Permutation
    (cancellationData (select_cancellations d))
    (map (fun b =>
            {| Cancellation.type := "booking";
               Cancellation.order_id := Booking.order_id b;
               Cancellation.total :=
                 or0 (parseFloat (VStr (numeric_text (coalesce0 (Booking.total b)))));
               Cancellation.created_at := Booking.created_at b |})
         (filter where_canceled_booking (bookings d))
     ++ map (fun q =>
               {| Cancellation.type := "quotation";
                  Cancellation.order_id := Quotation.quotation_id q;
                  Cancellation.total :=
                    or0 (parseFloat
                           (VStr (numeric_text (coalesce0 (Quotation.total q)))));
                  Cancellation.created_at := Quotation.created_at q |})
            (filter where_canceled_quotation (fwcquotations d)))
  /\ (forall i x y,
        nth_error (cancellationData (select_cancellations d)) i = Some x ->
        nth_error (cancellationData (select_cancellations d)) (S i) = Some y ->
        desc (Cancellation.created_at x) (Cancellation.created_at y) = true
        /\ forall tx ty,
             Cancellation.created_at x = Some tx ->
             Cancellation.created_at y = Some ty -> ty <= tx)
  /\ Forall (fun x => is_nan (Cancellation.total x) = false)
       (cancellationData (select_cancellations d)).
Proof.
  unfold cancellationData, select_cancellations.
  split; [| split].
  - rewrite order_by_perm. unfold union_canceled.
    rewrite map_app, !map_map. reflexivity.
  - intros i x y Hx Hy.
    rewrite nth_error_map in Hx, Hy.
    destruct (nth_error _ i) as [rx|] eqn:Ex; [| discriminate].
    destruct (nth_error _ (S i)) as [ry|] eqn:Ey; [| discriminate].
    injection Hx as <-. injection Hy as <-. simpl.
    assert (D : desc (CancelRow.created_at rx) (CancelRow.created_at ry) = true).
    { refine (ObjFacts.Sorted_adjacent_pairs _ _ (order_by_sorted _ _ (union_canceled d)) i rx ry Ex Ey).
      intros a b. apply desc_total. }
    split; [exact D |].
    intros tx ty Tx Ty. rewrite Tx, Ty in D. simpl in D. now apply Z.leb_le.
  - apply Forall_forall. intros x I. apply in_map_iff in I as [row [<- _]].
    simpl. apply Amounts.or0_not_nan.
Qed.

End Cancellations.

(* ===================================================================== *)
(** ** Step 2: products *)
(* ===================================================================== *)

Module Products.

Import Js.
Import Pg.
Import Controller.
Import Terms.

(** *** The sum of each name *)
















(** *** The sort *)

Section Sort.

Context {A : Type} (cmp : A -> A -> number).
Context (P : A -> Prop) (R : A -> A -> Prop).
Hypothesis after : forall x y, P x -> P y -> ltb zero (cmp x y) = true -> R y x.
Hypothesis before : forall x y, P x -> P y -> ltb zero (cmp x y) = false -> R x y.






End Sort.




(** *** The rows of the query *)

Lemma mapM_Ok {A B : Type} (f : A -> result B) (l : list A) (ys : list B) :
  mapM f l = Ok ys -> Forall2 (fun x y => f x = Ok y) l ys.
Proof.
  revert ys. induction l as [|x l IH]; simpl; intros ys H.
  - injection H as <-. constructor.
  - destruct (f x) as [y|] eqn:E; [| discriminate]. simpl in H.
    destruct (mapM f l) as [ys'|]; [| discriminate]. simpl in H.
    injection H as <-. constructor; auto.
Qed.

Lemma Forall2_In_r {A B : Type} (R : A -> B -> Prop) (l : list A) (ys : list B) :
  Forall2 R l ys -> forall y, In y ys -> exists x, In x l /\ R x y.
Proof.
  induction 1 as [|x y l ys Rxy F IH]; simpl; [tauto |].
  intros y' [<- | I]; eauto.
  destruct (IH _ I) as [x' [I' Rx]]. eauto.
Qed.

Lemma Forall2_In_l {A B : Type} (R : A -> B -> Prop) (l : list A) (ys : list B) :
  Forall2 R l ys -> forall x, In x l -> exists y, In y ys /\ R x y.
Proof.
  induction 1 as [|x y l ys Rxy F IH]; simpl; [tauto |].
  intros x' [<- | I]; eauto.
  destruct (IH _ I) as [y' [I' Rx]]. eauto.
Qed.

Lemma booking_product_rows_Ok (b : Booking.t) (rows : list ProductRow.t) :
  booking_product_rows b = Ok rows ->
  forall row,
    In row rows <->
    exists items e,
      Booking.products b = Some (JArray items) /\ In e items
      /\ has_key e "productname" = true /\ has_key e "quantity" = true
      /\ product_row e = Ok row.
Proof.
  unfold booking_product_rows, jsonb_array_elements.
  destruct (Booking.products b) as [[items| |]|]; simpl; try discriminate.
  - intros H row. apply mapM_Ok in H. split.
    + intros I. destruct (Forall2_In_r _ _ _ H _ I) as [e [Ie E]].
      apply filter_In in Ie as [Ie K]. unfold where_line_item in K.
      apply andb_true_iff in K as [K1 K2]. exists items, e. auto.
    + intros [items' [e [E [Ie [K1 [K2 P]]]]]]. injection E as <-.
      assert (If : In e (filter where_line_item items)).
      { apply filter_In. split; auto. unfold where_line_item.
        now rewrite K1, K2. }
      destruct (Forall2_In_l _ _ _ H _ If) as [row' [I' P']].
      congruence.
  - intros H row. injection H as <-. split; [intros [] |].
    intros [items [e [E _]]]. discriminate.
Qed.

(** X4. The rows of the products query, when it succeeds: one per line item of a
    confirmed order that has both the key productname and the key quantity;
    a line item lacking either key gives no row. *)
Theorem line_items_need_both_keys (d : db) (rows : list ProductRow.t) :
  select_products d = Ok rows ->
  forall row,
    In row rows <->
    exists b items e,
      In b (bookings d) /\ where_confirmed b = true
      /\ Booking.products b = Some (JArray items) /\ In e items
      /\ has_key e "productname" = true /\ has_key e "quantity" = true
      /\ product_row e = Ok row.
Proof.
  unfold select_products. intros H row.
  destruct (mapM booking_product_rows (filter where_confirmed (bookings d)))
    as [rss|] eqn:M; [| discriminate].
  simpl in H. injection H as <-. apply mapM_Ok in M. split.
  - intros I. apply in_concat in I as [rs [Irs I]].
    destruct (Forall2_In_r _ _ _ M _ Irs) as [b [Ib E]].
    apply filter_In in Ib as [Ib C].
    destruct (proj1 (booking_product_rows_Ok b rs E row) I) as [items [e J]].
    exists b, items, e. tauto.
  - intros [b [items [e [Ib [C I]]]]].
    assert (If : In b (filter where_confirmed (bookings d)))
      by (apply filter_In; auto).
    destruct (Forall2_In_l _ _ _ M _ If) as [rs [Irs E]].
    apply in_concat. exists rs. split; auto.
    apply (booking_product_rows_Ok b rs E). eauto.
Qed.

Lemma line_items_need_both_keys_witness :
  In {| ProductRow.productname := Some "Rocket";
        ProductRow.quantity := VNum (Fin 10) |}
     [ {| ProductRow.productname := Some "Rocket";
          ProductRow.quantity := VNum (Fin 10) |} ] <->
  exists b items e,
    In b (bookings (store (Samples.items_pool Samples.rocket_and_nameless)))
    /\ where_confirmed b = true
    /\ Booking.products b = Some (JArray items) /\ In e items
    /\ has_key e "productname" = true /\ has_key e "quantity" = true
    /\ product_row e
       = Ok {| ProductRow.productname := Some "Rocket";
               ProductRow.quantity := VNum (Fin 10) |}.
Proof.
  apply (line_items_need_both_keys
           (store (Samples.items_pool Samples.rocket_and_nameless))).
  reflexivity.
Defined.

(** C7, on a booked order with two line items, Rocket with quantity 10 and
    Wheel with a quantity that is no number: the cast [::integer] of the
    query raises before [COALESCE] and [parseInt(...) || 0] can default it,
    and the request fails as a whole; with a JSON null in its place the item
    is kept and counts 0. *)
Theorem unreadable_quantity_fails_request :
  getSalesAnalysis
    (Samples.items_pool
       [ EObject [("productname", FString "Rocket"); ("quantity", FNumber (Dec 10 0))];
         EObject [("productname", FString "Wheel"); ("quantity", FString "ten")] ])
  = {| Response.status := 500;
       Response.body :=
         DObj [("message", DStr "Failed to fetch sales analysis");
               ("error", DStr "invalid input syntax for type integer")] |}
  /\ exists r : Report.t,
       analysis
         (Samples.items_pool
            [ EObject [("productname", FString "Rocket"); ("quantity", FNumber (Dec 10 0))];
              EObject [("productname", FString "Wheel"); ("quantity", FNull)] ])
       = Ok r
       /\ Report.products r
          = [ {| Product.productname := "Rocket"; Product.quantity := Fin 10 |};
              {| Product.productname := "Wheel"; Product.quantity := Fin 0 |} ].
Proof.
  split.
  - vm_compute. reflexivity.
  - eexists. split; vm_compute; reflexivity.
Qed.

End Products.

(* ===================================================================== *)
(** ** From the store to the controller: counts and amounts as text *)
(* ===================================================================== *)

Module Transport.

Import Js.
Import Pg.
Import Controller.
Import Terms.

Lemma reading_acc (d : Decimal.uint) : forall acc,
  reading acc d = acc * 10 ^ Z.of_nat (Decimal.nb_digits d) + reading 0 d.
Proof.
  induction d; intros acc; cbn [reading Decimal.nb_digits];
    try (rewrite Z.pow_0_r; lia);
    match goal with
    | |- reading ?a d = _ + reading ?b d => rewrite (IHd a), (IHd b)
    end;
    rewrite Nat2Z.inj_succ, Z.pow_succ_r by lia; ring.
Qed.


Lemma of_uint_acc_reading (d : Decimal.uint) : forall acc,
  Z.pos (Pos.of_uint_acc d acc) = reading (Z.pos acc) d.
Proof.
  induction d; intros acc; cbn [Pos.of_uint_acc reading]; auto;
    rewrite IHd; f_equal; lia.
Qed.

Lemma of_uint_reading (d : Decimal.uint) : Z.of_N (N.of_uint d) = reading 0 d.
Proof.
  unfold N.of_uint.
  induction d; cbn [Pos.of_uint reading]; auto;
    cbn [Z.of_N]; rewrite of_uint_acc_reading; reflexivity.
Qed.

Lemma digits_from_reading (d : Decimal.uint) : forall acc n rest,
  digits_from acc n (NilEmpty.string_of_uint d ++ rest)%string
  = digits_from (reading acc d) (n + Decimal.nb_digits d) rest.
Proof.
  induction d; intros acc n rest;
    cbn [NilEmpty.string_of_uint String.append reading Decimal.nb_digits digits_from];
    try (now rewrite Nat.add_0_r);
    change (is_digit _) with true; cbv iota;
    match goal with
    | |- context [digit_val ?c] =>
        let v := eval vm_compute in (digit_val c) in
        change (digit_val c) with v
    end;
    rewrite ?Z.add_0_r, IHd, Nat.add_succ_r; reflexivity.
Qed.

Lemma to_uint_nonnil (n : N) : N.to_uint n <> Decimal.Nil.
Proof.
  destruct n; simpl; [discriminate | apply DecimalPos.Unsigned.to_uint_nonnil].
Qed.

Lemma nat_text_uint (z : Z) :
  nat_text z = NilEmpty.string_of_uint (N.to_uint (Z.to_N z)).
Proof.
  unfold nat_text, NilZero.string_of_uint.
  pose proof (to_uint_nonnil (Z.to_N z)) as H.
  now destruct (N.to_uint (Z.to_N z)).
Qed.

Lemma length_string_of_uint (d : Decimal.uint) :
  String.length (NilEmpty.string_of_uint d) = Decimal.nb_digits d.
Proof. induction d; simpl; auto. Qed.

Lemma reading_to_uint (z : Z) : 0 <= z -> reading 0 (N.to_uint (Z.to_N z)) = z.
Proof.
  intros H. rewrite <- of_uint_reading, DecimalN.Unsigned.of_to. now apply Z2N.id.
Qed.

Lemma append_empty (s : string) : (s ++ "")%string = s.
Proof. induction s; simpl; congruence. Qed.

(** Reading the digits of a number written by the server gives it back. *)
Lemma digits_from_nat_text (z acc : Z) (n : nat) (rest : string) :
  0 <= z ->
  digits_from acc n (nat_text z ++ rest)%string
  = digits_from (acc * 10 ^ Z.of_nat (String.length (nat_text z)) + z)
      (n + String.length (nat_text z)) rest.
Proof.
  intros H. rewrite nat_text_uint, digits_from_reading, length_string_of_uint.
  now rewrite reading_acc, reading_to_uint.
Qed.

Lemma digits_from_count (s : string) : forall acc n,
  (n <= snd (fst (digits_from acc n s)))%nat.
Proof.
  induction s as [|c s IH]; intros acc n; cbn [digits_from]; auto.
  destruct (is_digit c); cbn [fst snd]; auto.
  specialize (IH (10 * acc + digit_val c) (S n)). lia.
Qed.

(** [parseInt] of a string that starts with a digit and is no [0x] numeral:
    the number its leading digits read. *)
Lemma parseInt_string_digits (c : ascii) (r : string) :
  is_digit c = true ->
  match r with
  | String x _ => is_digit x = true
  | EmptyString => True
  end ->
  parseInt_string (String c r) = of_Z (fst (fst (digits_from 0 0 (String c r)))).
Proof.
  intros D X. unfold parseInt_string.
  assert (S : is_space c = false).
  { destruct c as [[] [] [] [] [] [] [] []]; try reflexivity; discriminate. }
  assert (G : read_sign (String c r) = (false, String c r)).
  { destruct c as [[] [] [] [] [] [] [] []]; try reflexivity; discriminate. }
  cbn [skip_space]. rewrite S, G.
  pose proof (digits_from_count r (10 * 0 + digit_val c) 1) as C.
  assert (E : digits_from 0 0 (String c r)
              = digits_from (10 * 0 + digit_val c) 1 r).
  { cbn [digits_from]. now rewrite D. }
  rewrite <- E in C.
  destruct (digits_from 0 0 (String c r)) as [[v n] rest] eqn:F.
  cbn [fst snd] in *.
  assert (Z0 : of_Z (signed false v) = of_Z v) by reflexivity.
  destruct (Ascii.eqb_spec c "0"%char) as [-> | NZ].
  - destruct r as [|x r'].
    + destruct n; [lia | exact Z0].
    + assert (NX : (Ascii.eqb x "x" || Ascii.eqb x "X")%bool = false).
      { destruct x as [[] [] [] [] [] [] [] []]; try reflexivity; discriminate. }
      rewrite NX. exact Z0.
  - assert (K : match n with O => NaN | S _ => of_Z (signed false v) end = of_Z v).
    { destruct n; [lia | exact Z0]. }
    destruct c as [[] [] [] [] [] [] [] []]; try discriminate D; try exact K;
      try congruence; destruct r; exact K.
Qed.

Lemma string_of_uint_digits (d : Decimal.uint) :
  d <> Decimal.Nil ->
  exists c r,
    NilEmpty.string_of_uint d = String c r
    /\ is_digit c = true
    /\ match r with
       | String x _ => is_digit x = true
       | EmptyString => True
       end.
Proof.
  intros N.
  destruct d as [|d|d|d|d|d|d|d|d|d|d]; [congruence | ..];
    cbn [NilEmpty.string_of_uint]; eexists; eexists;
    (split; [reflexivity | split; [reflexivity |]]);
    destruct d; cbn [NilEmpty.string_of_uint]; auto.
Qed.

Lemma digits_from_end (acc : Z) (n : nat) : digits_from acc n "" = (acc, n, "").
Proof. reflexivity. Qed.

(** [parseInt] reads a count as the server writes it. *)
Lemma parseInt_nat_text (z : Z) : 0 <= z -> parseInt_string (nat_text z) = of_Z z.
Proof.
  intros H. rewrite nat_text_uint.
  destruct (string_of_uint_digits _ (to_uint_nonnil (Z.to_N z)))
    as [c [r [E [D X]]]].
  rewrite E, (parseInt_string_digits c r D X), <- E.
  rewrite <- (append_empty (NilEmpty.string_of_uint _)).
  rewrite digits_from_reading, digits_from_end. cbn [fst].
  now rewrite reading_to_uint.
Qed.

Lemma parseInt_bigint_value (n : nat) : parseInt (bigint_value n) = of_Z (Z.of_nat n).
Proof. unfold bigint_value. cbn [parseInt]. apply parseInt_nat_text. lia. Qed.






Lemma Qred_integer (z : Z) : Qred (inject_Z z) = inject_Z z.
Proof.
  unfold Qred, inject_Z.
  pose proof (Z.ggcd_gcd z 1) as G. pose proof (Z.ggcd_correct_divisors z 1) as D.
  destruct (Z.ggcd z 1) as [g [a b]]. cbn [fst snd] in *.
  rewrite Z.gcd_1_r in G. subst g. destruct D as [-> D].
  rewrite Z.mul_1_l in D. subst b. f_equal. lia.
Qed.










End Transport.

(* ===================================================================== *)
(** ** Sums: of the store, of the controller *)
(* ===================================================================== *)

Module Sums.

Import Js.
Import Pg.
Import Controller.
Import Terms.
Import Transport.






Lemma add_of_Z (a b : Z) : add (of_Z a) (of_Z b) = of_Z (a + b).
Proof.
  unfold add, of_Z. f_equal. rewrite <- (Qred_integer (a + b)). apply Qred_complete.
  unfold inject_Z, Qeq, Qplus. simpl. ring.
Qed.

Lemma add_comm (a b : number) : add a b = add b a.
Proof.
  destruct a, b; cbn [add]; try reflexivity.
  f_equal. apply Qred_complete. ring.
Qed.

Lemma add_assoc (a b c : number) : add (add a b) c = add a (add b c).
Proof.
  destruct a, b, c; cbn [add]; try reflexivity.
  f_equal. apply Qred_complete. rewrite !Qred_correct. ring.
Qed.

Lemma fold_add_perm (l l' : list number) :
  Permutation l l' -> forall a, fold_left add l a = fold_left add l' a.
Proof.
  induction 1 as [|x l l' P IH|x y l|l l' l'' P IH P' IH']; intros a; simpl; auto.
  - f_equal. rewrite !add_assoc. f_equal. apply add_comm.
  - now rewrite IH, IH'.
Qed.

(** The order in which amounts are added does not change their sum. *)
Lemma total_perm (l l' : list number) : Permutation l l' -> total l = total l'.
Proof. intros P. now apply fold_add_perm. Qed.


(** Adding up counts group by group counts the rows of the groups. *)
Lemma total_lengths {A : Type} (groups : list (list A)) : forall n : Z,
  fold_left add (map (fun g => of_Z (Z.of_nat (List.length g))) groups) (of_Z n)
  = of_Z (n + Z.of_nat (List.length (List.concat groups))).
Proof.
  induction groups as [|g groups IH]; intros n; cbn [map fold_left List.concat].
  - cbn [List.length]. now rewrite Z.add_0_r.
  - rewrite add_of_Z, IH, length_app. f_equal. lia.
Qed.

Lemma add_zero_sum (l : list numeric) :
  add zero (total (map numeric_number l)) = total (map numeric_number l).
Proof.
  destruct l as [|a l] using rev_ind; [reflexivity |].
  rewrite map_app. cbn [map]. rewrite Cities.total_snoc.
  destruct (total (map numeric_number l)), (numeric_number a); try reflexivity.
  unfold add, zero. f_equal. apply Qred_complete. rewrite Qred_correct. ring.
Qed.



End Sums.

(* ===================================================================== *)
(** ** GROUP BY *)
(* ===================================================================== *)

Module Groups.

Import Js.
Import Pg.
Import Controller.
Import Terms.

Section GroupBy.

Context {A K : Type} (eqb : K -> K -> bool) (key : A -> K).
Hypothesis eqb_eq : forall x y, eqb x y = true <-> x = y.

Lemma distinct_all (l : list K) (k : K) : In k l -> In k (distinct eqb l).
Proof.
  induction l as [|x l IH]; simpl; auto.
  intros [-> | H]; auto.
  destruct (eqb x k) eqn:E.
  - left. now apply eqb_eq.
  - right. apply filter_In. split; auto. now rewrite E.
Qed.

Lemma distinct_NoDup (l : list K) : NoDup (distinct eqb l).
Proof.
  induction l as [|x l IH]; simpl; constructor.
  - intros H. apply filter_In in H as [_ H].
    assert (E : eqb x x = true) by now apply eqb_eq.
    now rewrite E in H.
  - now apply NoDup_filter.
Qed.

Lemma filter_or_perm (p q : A -> bool) (l : list A) :
  (forall x, p x = true -> q x = false) ->
  Permutation (filter (fun x => p x || q x) l) (filter p l ++ filter q l).
Proof.
  intros D. induction l as [|x l IH]; simpl; auto.
  destruct (p x) eqn:P; simpl.
  - rewrite (D x P). now constructor.
  - destruct (q x); auto.
    rewrite <- Permutation_middle. now constructor.
Qed.

(** The groups chosen by a test on the key hold, between them, the rows
    chosen by the same test, each once. *)
Lemma groups_perm (want : K -> bool) (rows : list A) (ks : list K) :
  NoDup ks ->
  Permutation
    (List.concat (map (fun k => filter (fun r => eqb k (key r)) rows)
                      (filter want ks)))
    (filter (fun r => want (key r) && existsb (fun k => eqb k (key r)) ks) rows).
Proof.
  induction 1 as [|k0 ks N ND IH].
  - simpl. induction rows as [|r rows IHr]; simpl; auto.
    now rewrite andb_false_r.
  - cbn [filter existsb].
    assert (S : Permutation
                  (filter (fun r => want (key r)
                                    && (eqb k0 (key r)
                                        || existsb (fun k => eqb k (key r)) ks)) rows)
                  (filter (fun r => want (key r) && eqb k0 (key r)) rows
                   ++ filter (fun r => want (key r)
                                       && existsb (fun k => eqb k (key r)) ks) rows)).
    { rewrite <- filter_or_perm.
      - erewrite filter_ext; [reflexivity |]. intros r. simpl.
        now destruct (want (key r)).
      - intros r H. apply andb_true_iff in H as [_ H]. apply eqb_eq in H.
        apply andb_false_iff. right. apply not_true_is_false. intros E.
        apply existsb_exists in E as [k [I E]]. apply eqb_eq in E.
        subst. now subst. }
    rewrite S. destruct (want k0) eqn:W.
    + cbn [map List.concat]. apply Permutation_app; auto.
      erewrite filter_ext; [reflexivity |]. intros r. simpl.
      destruct (eqb k0 (key r)) eqn:E.
      * apply eqb_eq in E. rewrite <- E, W. reflexivity.
      * now rewrite andb_false_r.
    + rewrite <- IH.
      replace (filter (fun r => want (key r) && eqb k0 (key r)) rows) with (@nil A);
        [reflexivity |].
      symmetry. clear - eqb_eq W.
      induction rows as [|r rows IHr]; simpl; auto.
      destruct (eqb k0 (key r)) eqn:E.
      * apply eqb_eq in E. rewrite <- E, W. simpl. apply IHr.
      * rewrite andb_false_r. apply IHr.
Qed.

Lemma groups_of_test (want : K -> bool) (rows : list A) :
  Permutation
    (List.concat (map snd (filter (fun g => want (fst g)) (group_by eqb key rows))))
    (filter (fun r => want (key r)) rows).
Proof.
  unfold group_by.
  set (ks := distinct eqb (map key rows)).
  set (mk := fun k => (k, filter (fun r => eqb k (key r)) rows)).
  assert (F : filter (fun g => want (fst g)) (map mk ks) = map mk (filter want ks)).
  { clear. induction ks as [|k ks IH]; simpl; auto.
    destruct (want k); simpl; now rewrite IH. }
  rewrite F, map_map. cbn [mk snd].
  rewrite (groups_perm want rows ks (distinct_NoDup _)).
  erewrite filter_ext_in; [reflexivity |].
  intros r I. simpl.
  assert (E : existsb (fun k => eqb k (key r)) ks = true).
  { apply existsb_exists. exists (key r). split.
    - apply distinct_all. now apply in_map.
    - now apply eqb_eq. }
  rewrite E. apply andb_true_r.
Qed.

End GroupBy.

End Groups.

(* ===================================================================== *)
(** ** The report in terms of the records of the store *)
(* ===================================================================== *)

Module Records.

Import Js.
Import Pg.
Import Controller.
Import Terms.
Import Transport.
Import Sums.
Import Groups.

Lemma text_eqb_eq (x y : option string) : text_eqb x y = true <-> x = y.
Proof.
  destruct x as [a|], y as [b|]; simpl; split; try congruence.
  - intros H. apply String.eqb_eq in H. congruence.
  - intros H. injection H as ->. apply String.eqb_refl.
Qed.

Lemma filter_map_swap {A B : Type} (f : B -> bool) (g : A -> B) (l : list A) :
  filter f (map g l) = map g (filter (fun x => f (g x)) l).
Proof.
  induction l as [|x l IH]; simpl; auto.
  destruct (f (g x)); simpl; now rewrite IH.
Qed.





Section Grouped.

Context {A : Type} (key : A -> option string) (column : A -> option numeric).
Context (rows : list A) (want : option string -> bool).



End Grouped.
























(** X12. In every successful response each conversion bucket counts the
    quotations of the store: the count of pending, of booked and of canceled
    is the number of quotations whose status reads so in lower case, the
    quotations whose status is NULL or empty counting as canceled. *)
Theorem buckets_count_the_quotations (p : pool) :
  Response.status (getSalesAnalysis p) = 200 ->
  exists r : Report.t,
    Response.body (getSalesAnalysis p) = report_data r
    /\ forall name, In name ["pending"; "booked"; "canceled"] ->
         exists bucket,
           Obj.get name (Report.quotations r) = Some bucket
           /\ Bucket.count bucket
              = of_Z (Z.of_nat (List.length (quotations_under name (store p)))).
Proof.
  intros S. apply Assembly.success_report in S as [r [A B]].
  exists r. split; [exact B |].
  apply Assembly.analysis_Ok in A as [_ [products [_ ->]]].
  cbn [Report.quotations]. intros name I.
  destruct (Conversion.summed_fold (select_quotations (store p)) [] _
              Conversion.summed_init) as [_ BK].
  eexists. split; [apply (BK name I) |].
  unfold bucket_sum. cbn [Bucket.count app].
  unfold rows_under, select_quotations. rewrite filter_map_swap, map_map.
  cbn [StatusRow.count].
  rewrite (map_ext _ (fun g : option string * list Quotation.t =>
                        of_Z (Z.of_nat (List.length (snd g)))))
    by (intros g; apply parseInt_bigint_value).
  rewrite <- (map_map snd (fun l => of_Z (Z.of_nat (List.length l)))).
  unfold total. change zero with (of_Z 0). rewrite total_lengths.
  rewrite Z.add_0_l. do 2 f_equal.
  apply Permutation_length.
  apply (groups_of_test text_eqb (fun q => LOWER (Quotation.status q)) text_eqb_eq
           (fun k => String.eqb (or_str k "canceled") name)).
Qed.

Lemma buckets_count_the_quotations_witness :
  Response.status (getSalesAnalysis Samples.regional_pool) = 200
  /\ (exists r : Report.t,
    Response.body (getSalesAnalysis Samples.regional_pool) = report_data r
    /\ forall name, In name ["pending"; "booked"; "canceled"] ->
         exists bucket,
           Obj.get name (Report.quotations r) = Some bucket
           /\ Bucket.count bucket
              = of_Z (Z.of_nat (List.length (quotations_under name (store Samples.regional_pool))))).
Proof.
  split.
  - reflexivity.
  - apply (buckets_count_the_quotations Samples.regional_pool). reflexivity.
Defined.


End Records.

(* ===================================================================== *)
(** ** Which response, and what it depends on *)
(* ===================================================================== *)

Module Outcome.

Import Js.
Import Pg.
Import Controller.
Import Terms.
Import Records.







Lemma filter_none {A : Type} (f : A -> bool) (l : list A) :
  (forall x, In x l -> f x = false) -> filter f l = [].
Proof.
  induction l as [|x l IH]; simpl; auto.
  intros H. rewrite (H x (or_introl eq_refl)). apply IH. intros y I. apply H. now right.
Qed.

(** X14. A store without confirmed order, read through a sound connection,
    is answered 200 whatever its other orders hold: no product, no trend, no
    customer type, a profitability of 0, and cities made of the pipeline
    quotations alone. *)
Theorem nothing_confirmed_nothing_sold (p : pool) :
  (forall q, fault p q = None) ->
  (forall b, In b (bookings (store p)) -> where_confirmed b = false) ->
  exists r : Report.t,
    getSalesAnalysis p
    = {| Response.status := 200; Response.body := report_data r |}
    /\ Report.products r = []
    /\ Report.trends r = []
    /\ Report.customer_types r = []
    /\ Report.profitability r
       = {| Profit.total_amount := Fin 0;
            Profit.amount_paid := Fin 0;
            Profit.unpaid_amount := Fin 0 |}
    /\ Report.cities r = cityData [] (select_cityQuotations (store p)).
Proof.
  intros F N.
  assert (E : filter where_confirmed (bookings (store p)) = [])
    by now apply filter_none.
  assert (EC : filter where_customer (bookings (store p)) = []).
  { apply filter_none. intros b I. unfold where_customer. now rewrite (N b I). }
  assert (A : analysis p
              = Ok {| Report.products := productData [];
                      Report.cities :=
                        cityData (select_cityBookings (store p))
                          (select_cityQuotations (store p));
                      Report.trends := trendDataArray (select_historical (store p));
                      Report.profitability :=
                        profitData (select_profitability (store p));
                      Report.quotations :=
                        quotationSummary (select_quotations (store p));
                      Report.customer_types :=
                        customerTypeData (select_customerTypes (store p));
                      Report.cancellations :=
                        cancellationData (select_cancellations (store p)) |}).
  { unfold analysis, query_validateProducts, query_products, query_cityBookings,
      query_cityQuotations, query_historical, query_profitability,
      query_quotations, query_customerTypes, query_cancellations, pool_query.
    rewrite !F. unfold select_products. rewrite E. reflexivity. }
  eexists. unfold getSalesAnalysis. rewrite A.
  split; [reflexivity |]. cbn [Report.products Report.trends Report.customer_types
    Report.profitability Report.cities].
  unfold select_historical, select_customerTypes, select_profitability,
    select_cityBookings. rewrite E, EC. repeat split; reflexivity.
Qed.

Lemma nothing_confirmed_nothing_sold_witness :
  exists r : Report.t,
    getSalesAnalysis Samples.canceled_only_pool
    = {| Response.status := 200; Response.body := report_data r |}
    /\ Report.products r = []
    /\ Report.trends r = []
    /\ Report.customer_types r = []
    /\ Report.profitability r
       = {| Profit.total_amount := Fin 0;
            Profit.amount_paid := Fin 0;
            Profit.unpaid_amount := Fin 0 |}
    /\ Report.cities r
       = cityData [] (select_cityQuotations (store Samples.canceled_only_pool)).
Proof.
  apply (nothing_confirmed_nothing_sold Samples.canceled_only_pool).
  - reflexivity.
  - intros b [<- | []]. reflexivity.
Defined.

Lemma error_of_Some {A : Type} (r : result A) (msg : string) :
  error_of r = Some msg -> r = Error msg.
Proof. destruct r; simpl; congruence. Qed.

(** X15. The failure reported is that of the first statement that raises, in
    the order of the source: what the statements after it would do, raise or
    not, changes nothing. *)
Theorem first_failure_is_reported (p : pool) (q : query) (msg : string) :
  raised p q = Some msg ->
  (forall q', (position q' < position q)%nat -> raised p q' = None) ->
  getSalesAnalysis p
  = {| Response.status := 500;
       Response.body :=
         DObj [("message", DStr "Failed to fetch sales analysis");
               ("error", DStr msg)] |}.
Proof.
  intros R B.
  assert (A : analysis p = Error msg).
  { unfold analysis.
    assert (OK : forall q', (position q' < position q)%nat ->
                   match q' with
                   | ValidateProducts => exists a, query_validateProducts p = Ok a
                   | Products => exists a, query_products p = Ok a
                   | CityBookings => exists a, query_cityBookings p = Ok a
                   | CityQuotations => exists a, query_cityQuotations p = Ok a
                   | Historical => exists a, query_historical p = Ok a
                   | Profitability => exists a, query_profitability p = Ok a
                   | Quotations => exists a, query_quotations p = Ok a
                   | CustomerTypes => exists a, query_customerTypes p = Ok a
                   | Cancellations => exists a, query_cancellations p = Ok a
                   end).
    { intros q' L. specialize (B q' L).
      destruct q'; apply Failure.error_of_None; exact B. }
    destruct q; cbn [raised] in R; apply error_of_Some in R;
      repeat match goal with
      | |- context [bind (?f p) _] =>
          first
            [ rewrite R; reflexivity
            | let a := fresh "a" in
              let E := fresh "E" in
              match f with
              | query_validateProducts =>
                  destruct (OK ValidateProducts ltac:(simpl; lia)) as [a E]
              | query_products => destruct (OK Products ltac:(simpl; lia)) as [a E]
              | query_cityBookings =>
                  destruct (OK CityBookings ltac:(simpl; lia)) as [a E]
              | query_cityQuotations =>
                  destruct (OK CityQuotations ltac:(simpl; lia)) as [a E]
              | query_historical => destruct (OK Historical ltac:(simpl; lia)) as [a E]
              | query_profitability =>
                  destruct (OK Profitability ltac:(simpl; lia)) as [a E]
              | query_quotations => destruct (OK Quotations ltac:(simpl; lia)) as [a E]
              | query_customerTypes =>
                  destruct (OK CustomerTypes ltac:(simpl; lia)) as [a E]
              end;
              rewrite E; cbn [bind] ]
      end. }
  unfold getSalesAnalysis. now rewrite A.
Qed.

Lemma first_failure_is_reported_witness :
  getSalesAnalysis Samples.broken_pool
  = {| Response.status := 500;
       Response.body :=
         DObj [("message", DStr "Failed to fetch sales analysis");
               ("error", DStr "Connection terminated unexpectedly")] |}.
Proof.
  apply (first_failure_is_reported Samples.broken_pool Historical).
  - reflexivity.
  - intros [] L; try reflexivity; simpl in L; lia.
Defined.

Section Unread.

Context (f : Booking.t -> option jsonb) (g : Quotation.t -> option jsonb).

Lemma rewrite_booking_confirmed (b : Booking.t) :
  where_confirmed (rewrite_booking f b) = where_confirmed b.
Proof.
  unfold rewrite_booking. destruct (where_confirmed b) eqn:C; auto.
Qed.

Lemma rewrite_booking_kept (b : Booking.t) :
  where_confirmed b = true -> rewrite_booking f b = b.
Proof. unfold rewrite_booking. now intros ->. Qed.

Lemma filter_kept {A : Type} (keep : A -> bool) (h : A -> A) (l : list A) :
  (forall x, keep (h x) = keep x) ->
  (forall x, keep x = true -> h x = x) ->
  filter keep (map h l) = filter keep l.
Proof.
  intros K E. induction l as [|x l IH]; simpl; auto.
  rewrite K. destruct (keep x) eqn:C; [rewrite (E x C) |]; now rewrite IH.
Qed.

Lemma confirmed_unread (l : list Booking.t) :
  filter where_confirmed (map (rewrite_booking f) l) = filter where_confirmed l.
Proof.
  apply filter_kept; [apply rewrite_booking_confirmed | apply rewrite_booking_kept].
Qed.

Lemma customer_unread (l : list Booking.t) :
  filter where_customer (map (rewrite_booking f) l) = filter where_customer l.
Proof.
  apply filter_kept.
  - intros b. unfold where_customer. rewrite rewrite_booking_confirmed.
    unfold rewrite_booking. now destruct (where_confirmed b).
  - intros b C. apply rewrite_booking_kept. unfold where_customer in C.
    now apply andb_true_iff in C.
Qed.

Lemma canceled_unread (l : list Booking.t) :
  map canceled_booking (filter where_canceled_booking (map (rewrite_booking f) l))
  = map canceled_booking (filter where_canceled_booking l).
Proof.
  rewrite (Statuses.filter_respelled (rewrite_booking f)).
  - rewrite map_map. apply map_ext. intros b. unfold rewrite_booking.
    now destruct (where_confirmed b).
  - intros b. unfold rewrite_booking. now destruct (where_confirmed b).
Qed.

(** X16. The products column is read where step 2 reads it and nowhere else
    that shows: rewriting it in every quotation and in every order that is
    not confirmed changes nothing in the response, be it a report or a
    failure. What the probe of step 1 counts there is computed and
    dropped. *)
Theorem unread_products_do_not_show (p : pool) :
  getSalesAnalysis (rewrite_products f g p) = getSalesAnalysis p.
Proof.
  assert (Q2 : select_products (store (rewrite_products f g p))
               = select_products (store p)).
  { unfold select_products, rewrite_products. cbn [store bookings].
    now rewrite confirmed_unread. }
  assert (Q3 : select_cityBookings (store (rewrite_products f g p))
               = select_cityBookings (store p)).
  { unfold select_cityBookings, rewrite_products. cbn [store bookings].
    now rewrite confirmed_unread. }
  assert (Q4 : select_cityQuotations (store (rewrite_products f g p))
               = select_cityQuotations (store p)).
  { unfold select_cityQuotations, rewrite_products. cbn [store fwcquotations].
    rewrite (Statuses.filter_respelled (rewrite_quotation g)) by reflexivity.
    rewrite (Statuses.group_by_respelled (rewrite_quotation g)) by reflexivity.
    rewrite map_map. apply map_ext. intros [k l]. cbn [fst snd].
    now rewrite length_map, map_map. }
  assert (Q5 : select_historical (store (rewrite_products f g p))
               = select_historical (store p)).
  { unfold select_historical, rewrite_products. cbn [store bookings].
    now rewrite confirmed_unread. }
  assert (Q6 : select_profitability (store (rewrite_products f g p))
               = select_profitability (store p)).
  { unfold select_profitability, rewrite_products. cbn [store bookings].
    now rewrite confirmed_unread. }
  assert (Q7 : select_quotations (store (rewrite_products f g p))
               = select_quotations (store p)).
  { unfold select_quotations, rewrite_products. cbn [store fwcquotations].
    rewrite (Statuses.group_by_respelled (rewrite_quotation g)) by reflexivity.
    rewrite map_map. apply map_ext. intros [k l]. cbn [fst snd].
    now rewrite length_map, map_map. }
  assert (Q8 : select_customerTypes (store (rewrite_products f g p))
               = select_customerTypes (store p)).
  { unfold select_customerTypes, rewrite_products. cbn [store bookings].
    now rewrite customer_unread. }
  assert (Q9 : select_cancellations (store (rewrite_products f g p))
               = select_cancellations (store p)).
  { unfold select_cancellations, union_canceled, rewrite_products.
    cbn [store bookings fwcquotations]. rewrite canceled_unread.
    rewrite (Statuses.filter_respelled (rewrite_quotation g)) by reflexivity.
    now rewrite map_map. }
  unfold getSalesAnalysis, analysis, query_validateProducts, query_products,
    query_cityBookings, query_cityQuotations, query_historical,
    query_profitability, query_quotations, query_customerTypes,
    query_cancellations, pool_query.
  rewrite Q2, Q3, Q4, Q5, Q6, Q7, Q8, Q9.
  change (fault (rewrite_products f g p)) with (fault p).
  destruct (fault p ValidateProducts); reflexivity.
Qed.

End Unread.

End Outcome.

(* ===================================================================== *)
(** ** The products facet, from the line items of the store *)
(* ===================================================================== *)

Module LineItems.

Import Js Pg Controller Terms.
Import Transport Sums Groups Records.











End LineItems.

(* ===================================================================== *)
(** ** Uploads *)
(* ===================================================================== *)

Module Uploads.

Import Js.
Import Pg.
Import Terms.
Import Server.

(** *** Names without a dot *)

Lemma mark_end_dot (i : Z) (s : scan) : startDot (mark_end i s) = startDot s.
Proof. unfold mark_end. now destruct (end_ s =? -1). Qed.

Lemma extname_loop_no_dot (l : list ascii) : forall i s,
  ~ In "."%char l -> startDot s = -1 -> startDot (extname_loop l i s) = -1.
Proof.
  induction l as [|c l IH]; intros i s N D; cbn [extname_loop]; auto.
  destruct (Ascii.eqb c "/").
  - destruct (negb (matchedSlash s)); [exact D |].
    apply IH; auto. intros I. apply N. now right.
  - destruct (Ascii.eqb_spec c "."%char) as [-> | _].
    + exfalso. apply N. now left.
    + apply IH.
      * intros I. apply N. now right.
      * unfold see_other. rewrite mark_end_dot, D.
        change (-1 =? -1) with true. cbn [negb]. now rewrite mark_end_dot.
Qed.

Lemma extname_no_dot (path : string) :
  ~ In "."%char (list_ascii_of_string path) -> extname path = EmptyString.
Proof.
  intros N. unfold extname.
  rewrite extname_loop_no_dot; auto.
  intros I. apply N. now apply in_rev.
Qed.

(** X17. An upload whose name has no dot is refused whatever type it
    declares: the filter wants an extension. *)
Theorem no_extension_no_upload (file : File.t) :
  ~ In "."%char (list_ascii_of_string (File.originalname file)) ->
  fileFilter file = Error "Only JPEG/PNG images are allowed".
Proof.
  intros N. unfold fileFilter. now rewrite (extname_no_dot _ N).
Qed.

Lemma no_extension_no_upload_witness :
  fileFilter {| File.originalname := "photo"; File.mimetype := "image/png" |}
  = Error "Only JPEG/PNG images are allowed".
Proof.
  apply (no_extension_no_upload
           {| File.originalname := "photo"; File.mimetype := "image/png" |}).
  simpl. intuition discriminate.
Defined.

(** *** Names in capitals *)

Lemma upper_list (s : string) :
  list_ascii_of_string (upper s) = map upper_char (list_ascii_of_string s).
Proof. induction s; simpl; congruence. Qed.

Lemma upper_length (s : string) : String.length (upper s) = String.length s.
Proof. induction s; simpl; congruence. Qed.

Lemma upper_substring (s : string) : forall n m,
  String.substring n m (upper s) = upper (String.substring n m s).
Proof.
  induction s as [|c s IH]; intros n m.
  - destruct n, m; reflexivity.
  - destruct n as [|n]; [destruct m as [|m] |]; cbn [String.substring upper];
      auto. now rewrite IH.
Qed.

Lemma upper_char_slash (c : ascii) : Ascii.eqb (upper_char c) "/" = Ascii.eqb c "/".
Proof. destruct c as [[] [] [] [] [] [] [] []]; reflexivity. Qed.

Lemma upper_char_dot (c : ascii) : Ascii.eqb (upper_char c) "." = Ascii.eqb c ".".
Proof. destruct c as [[] [] [] [] [] [] [] []]; reflexivity. Qed.

Lemma extname_loop_upper (l : list ascii) : forall i s,
  extname_loop (map upper_char l) i s = extname_loop l i s.
Proof.
  induction l as [|c l IH]; intros i s; cbn [map extname_loop]; auto.
  now rewrite upper_char_slash, upper_char_dot, !IH.
Qed.

Lemma extname_upper (path : string) : extname (upper path) = upper (extname path).
Proof.
  unfold extname.
  rewrite upper_list, <- map_rev, extname_loop_upper, upper_length.
  match goal with |- (if ?c then _ else _) = _ => destruct c end; auto.
  apply upper_substring.
Qed.

(** X18. The filter reads the extension without regard to letter case: a
    file named in capitals is accepted or refused as the same file named as
    it is. *)
Theorem upload_name_case_does_not_matter (name type : string) :
  fileFilter {| File.originalname := upper name; File.mimetype := type |}
  = fileFilter {| File.originalname := name; File.mimetype := type |}.
Proof.
  unfold fileFilter. cbn [File.originalname File.mimetype].
  now rewrite extname_upper, Statuses.lower_upper.
Qed.

(** *** Stored names *)

(** X19. Stored names do not collide: the name given to an upload determines
    both the time of the upload and the name the file came with, so two
    uploads get the same stored name only at the same millisecond and under
    the same original name. *)
Theorem stored_names_do_not_collide (now now' : Z) (file file' : File.t) :
  0 <= now -> 0 <= now' ->
  filename now file = filename now' file' ->
  now = now' /\ File.originalname file = File.originalname file'.
Proof.
  intros H H' E. apply (f_equal (digits_from 0 0)) in E.
  unfold filename in E.
  rewrite !Transport.digits_from_nat_text in E by assumption.
  cbn [String.append digits_from] in E. change (is_digit "-") with false in E.
  cbv iota in E. injection E as E1 _ E3. split; [lia | exact E3].
Qed.

Lemma stored_names_do_not_collide_witness :
  1709251200000 = 1709251200000
  /\ File.originalname {| File.originalname := "a.png"; File.mimetype := "image/png" |}
     = File.originalname {| File.originalname := "a.png"; File.mimetype := "image/png" |}.
Proof.
  apply (stored_names_do_not_collide 1709251200000 1709251200000
           {| File.originalname := "a.png"; File.mimetype := "image/png" |}
           {| File.originalname := "a.png"; File.mimetype := "image/png" |});
    [lia | lia | reflexivity].
Defined.

End Uploads.
